(** * The JavaScript task runner of n8n: a shallow embedding

    Source: packages/@n8n/task-runner/src/js-task-runner/js-task-runner.ts

    The class [JsTaskRunner] runs the code of a Code node inside a fresh
    [node:vm] context, once for all input items or once per item, and turns
    what the code returns or throws into node execution data.

    Modelling choices.
    - JavaScript values that cross the boundary of the vm (returned or thrown
      by user code) are the inductive type [JsValue]: the JSON data model,
      [undefined], functions, BigInt, instances of the host realm's
      [Error], and objects whose graph has a cycle.  Numbers are the safe
      integers, which a double holds exactly and which print as their
      decimal digits.  Symbols are outside the model.
    - Strings are [string]; a character stands for a code unit below 256.
    - An awaited promise, and a call that may throw, is a [Completion]:
      it resolves or returns ([Return]), or it rejects or throws
      ([Throw]).
    - Objects used as records by the runner are Rocq records; objects used
      as dictionaries (the context of a run, the environment of the
      environment provider) are [gmap string _]; a [Set] is a [gset].
    - What lives in other packages (the workflow data proxy, the result
      validation, the RPC object of the base class, the [vm] module itself)
      is a field of the class [Host]; the properties hold for every host. *)

From Stdlib Require Import ZArith List String Ascii Bool Lia Sorted.
From Stdlib Require Import Numbers.DecimalString.
From stdpp Require Import base option list gmap sets strings fin_maps.

Local Open Scope string_scope.
Local Open Scope list_scope.

(** ** Numbers *)

Definition MAX_SAFE_INTEGER : Z := 9007199254740991.

(** [Number.isSafeInteger] on an integer. *)
Definition isSafeInteger (n : Z) : bool := Z.leb (Z.abs n) MAX_SAFE_INTEGER.

(** A number of the model: an integer between [-MAX_SAFE_INTEGER] and
    [MAX_SAFE_INTEGER]. *)
Record SafeInteger : Type := {
  integerValue : Z;
  integerSafe : isSafeInteger integerValue = true
}.

(** The number of an integer, when the integer is safe. *)
Definition safeInteger (n : Z) : option SafeInteger :=
  match Sumbool.sumbool_of_bool (isSafeInteger n) with
  | left safe => Some {| integerValue := n; integerSafe := safe |}
  | right _ => None
  end.

(** The number written as a literal within the range. *)
Notation "'#' n" := {| integerValue := n; integerSafe := eq_refl |}
  (at level 1, n at level 0, format "'#' n").

(** ** JavaScript values *)

#[warnings="-register-all"]
Inductive JsValue : Type :=
| JUndefined
| JNull
| JBool (b : bool)
| JNumber (n : SafeInteger)
| JBigInt (n : Z)
| JString (s : string)
| JArray (elements : list JsValue)
| JObject (properties : list (string * JsValue))
| JFunction
| JError (message : string) (stack : option string)
(** an object with these properties whose graph, besides, leads back to
    itself *)
| JCyclic (properties : list (string * JsValue)).

(** [obj[key]] on a plain object: the property, or [undefined]. *)
Fixpoint getProperty (properties : list (string * JsValue)) (key : string) : JsValue :=
  match properties with
  | [] => JUndefined
  | (k, v) :: rest => if String.eqb k key then v else getProperty rest key
  end.

(** ** Awaited results *)

Inductive Completion (E A : Type) : Type :=
| Return (a : A)
| Throw (e : E).
Arguments Return {E A} a.
Arguments Throw {E A} e.

Definition bindC {E A B} (c : Completion E A) (k : A -> Completion E B) : Completion E B :=
  match c with
  | Return a => k a
  | Throw e => Throw e
  end.

Notation "'let!' x ':=' c 'in' k" := (bindC c (fun x => k))
  (at level 10, x name, c at level 100, k at level 200).

(** A callback applied to the elements of a list in order, up to the first
    that throws. *)
Fixpoint mapC {E A B : Type} (f : A -> Completion E B) (l : list A)
  : Completion E (list B) :=
  match l with
  | [] => Return []
  | x :: rest =>
      let! y := f x in
      let! ys := mapC f rest in
      Return (y :: ys)
  end.

(** ** Strings: [split], [trim], [join] *)

Module JsString.

(** [String.prototype.split] with a one-character separator. *)
Fixpoint split (sep : ascii) (s : string) : list string :=
  match s with
  | EmptyString => [EmptyString]
  | String c rest =>
      if Ascii.eqb c sep then EmptyString :: split sep rest
      else match split sep rest with
           | [] => [String c EmptyString]
           | part :: parts => String c part :: parts
           end
  end.

(** [Array.prototype.join]. *)
Fixpoint join (sep : string) (parts : list string) : string :=
  match parts with
  | [] => EmptyString
  | [part] => part
  | part :: rest => part +:+ sep +:+ join sep rest
  end.

(** White space and line terminators among the code units below 256:
    TAB, LF, VT, FF, CR, SP and NBSP. *)
Definition isWhiteSpace (c : ascii) : bool :=
  let n := nat_of_ascii c in
  (Nat.leb 9 n && Nat.leb n 13) || Nat.eqb n 32 || Nat.eqb n 160.

Fixpoint trimStart (s : string) : string :=
  match s with
  | EmptyString => EmptyString
  | String c rest => if isWhiteSpace c then trimStart rest else s
  end.

Fixpoint trimEnd (s : string) : string :=
  match s with
  | EmptyString => EmptyString
  | String c rest =>
      match trimEnd rest with
      | EmptyString => if isWhiteSpace c then EmptyString else String c EmptyString
      | rest' => String c rest'
      end
  end.

(** [String.prototype.trim]. *)
Definition trim (s : string) : string := trimEnd (trimStart s).

Fixpoint allWhiteSpace (s : string) : bool :=
  match s with
  | EmptyString => true
  | String c rest => isWhiteSpace c && allWhiteSpace rest
  end.

Fixpoint contains (c : ascii) (s : string) : bool :=
  match s with
  | EmptyString => false
  | String d rest => Ascii.eqb d c || contains c rest
  end.

Definition firstChar (s : string) : option ascii :=
  match s with
  | EmptyString => None
  | String c _ => Some c
  end.

Fixpoint lastChar (s : string) : option ascii :=
  match s with
  | EmptyString => None
  | String c EmptyString => Some c
  | String _ rest => lastChar rest
  end.

End JsString.

(** ** [JSON.stringify] *)

Module JSON.

Definition doubleQuote : ascii := ascii_of_nat 34.

Definition hexDigit (n : nat) : ascii :=
  ascii_of_nat (if Nat.ltb n 10 then 48 + n else 87 + n).

(** The escape of one code unit inside a JSON string literal. *)
Definition escapeChar (c : ascii) : string :=
  let n := nat_of_ascii c in
  if Nat.eqb n 34 then String "\" (String doubleQuote EmptyString)
  else if Nat.eqb n 92 then "\\"
  else if Nat.eqb n 8 then "\b"
  else if Nat.eqb n 12 then "\f"
  else if Nat.eqb n 10 then "\n"
  else if Nat.eqb n 13 then "\r"
  else if Nat.eqb n 9 then "\t"
  else if Nat.ltb n 32 then
    "\u00" +:+ String (hexDigit (n / 16)) (String (hexDigit (n mod 16)) EmptyString)
  else String c EmptyString.

Fixpoint escape (s : string) : string :=
  match s with
  | EmptyString => EmptyString
  | String c rest => escapeChar c +:+ escape rest
  end.

Definition quote (s : string) : string :=
  String doubleQuote (escape s +:+ String doubleQuote EmptyString).

(** The decimal digits of an integer, with a minus sign when negative. *)
Definition decimal (n : Z) : string :=
  NilZero.string_of_int (Z.to_int n).

(** The text of a number: a safe integer prints as its decimal digits. *)
Definition numberToString (n : SafeInteger) : string :=
  decimal (integerValue n).

(** The [TypeError] that [JSON.stringify] throws on a BigInt and on a
    circular structure. *)
Inductive TypeError : Type := NotSerializable.

(** The serialisation of a value, or [None] where [JSON.stringify]
    gives [undefined]; it throws on a BigInt and on an object whose graph
    has a cycle, wherever they sit.  Inside an array a value without
    serialisation is written [null]; inside an object its property is left
    out.  The [message] and [stack] of an [Error] are not enumerable. *)
Fixpoint stringify (v : JsValue) : Completion TypeError (option string) :=
  match v with
  | JUndefined => Return None
  | JFunction => Return None
  | JNull => Return (Some "null")
  | JBool true => Return (Some "true")
  | JBool false => Return (Some "false")
  | JNumber n => Return (Some (numberToString n))
  | JBigInt _ => Throw NotSerializable
  | JString s => Return (Some (quote s))
  | JArray elements =>
      let! parts :=
        mapC (fun x =>
                let! text := stringify x in
                Return match text with
                       | Some t => t
                       | None => "null"
                       end) elements in
      Return (Some ("[" +:+ JsString.join "," parts +:+ "]"))
  | JObject properties =>
      let! parts :=
        mapC (fun kv =>
                let! text := stringify (snd kv) in
                Return match text with
                       | Some t => [quote (fst kv) +:+ ":" +:+ t]
                       | None => []
                       end) properties in
      Return (Some ("{" +:+ JsString.join "," (List.concat parts) +:+ "}"))
  | JError _ _ => Return (Some "{}")
  | JCyclic _ => Throw NotSerializable
  end.

End JSON.

(** ** Data of the runner *)

(** [INodeExecutionData]: one item of node input or output. *)
Module INodeExecutionData.
Record IPairedItemData : Type := { item : nat }.
Record t : Type := {
  json : JsValue;
  binary : option JsValue;
  pairedItem : option IPairedItemData
}.
End INodeExecutionData.
Abbreviation INodeExecutionData := INodeExecutionData.t.

(** [EnvProviderState]: what the [$env] provider of the data proxy reads. *)
Module EnvProviderState.
Record t : Type := {
  env : gmap string string;
  isEnvAccessBlocked : bool;
  isProcessAvailable : bool
}.
End EnvProviderState.
Abbreviation EnvProviderState := EnvProviderState.t.

Module JSExecSettings.
Record t : Type := {
  code : string;
  nodeMode : string;
  workflowMode : string;
  continueOnFail : bool;
  mode : string
}.
End JSExecSettings.
Abbreviation JSExecSettings := JSExecSettings.t.

Module IRunExecutionData.
Record ResultData : Type := { runData : JsValue; metadata : JsValue }.
Record t : Type := { resultData : ResultData; executionData : JsValue }.
End IRunExecutionData.
Abbreviation IRunExecutionData := IRunExecutionData.t.

Module AllCodeTaskData.
Record t : Type := {
  workflow : JsValue;
  inputData : JsValue;
  node : JsValue;
  runExecutionData : IRunExecutionData;
  runIndex : nat;
  itemIndex : nat;
  activeNodeName : string;
  connectionInputData : list INodeExecutionData;
  siblingParameters : JsValue;
  mode : string;
  envProviderState : option EnvProviderState;
  executeData : option JsValue;
  defaultReturnRunIndex : nat;
  selfData : JsValue;
  contextNodeName : string;
  additionalData : JsValue
}.
End AllCodeTaskData.
Abbreviation AllCodeTaskData := AllCodeTaskData.t.

Module Workflow.
(** [new Workflow({ ...workflowParams, nodeTypes })] *)
Record t : Type := { parameters : JsValue; nodeTypes : JsValue }.
End Workflow.
Abbreviation Workflow := Workflow.t.

Module Task.
Record t : Type := { taskId : string; settings : option JSExecSettings }.
End Task.
Abbreviation Task := Task.t.

Module TaskResultData.
Record t : Type := { result : list INodeExecutionData; customData : JsValue }.
End TaskResultData.
Abbreviation TaskResultData := TaskResultData.t.

(** The arguments of [new WorkflowDataProxy(...)], in the order of the
    constructor call in [createDataProxy]. *)
Module WorkflowDataProxy.
Record t : Type := {
  workflow : Workflow;
  runExecutionData : IRunExecutionData;
  runIndex : nat;
  itemIndex : nat;
  activeNodeName : string;
  connectionInputData : list INodeExecutionData;
  siblingParameters : JsValue;
  mode : string;
  additionalKeys : JsValue;
  executeData : option JsValue;
  defaultReturnRunIndex : nat;
  selfData : JsValue;
  contextNodeName : string;
  envProviderState : EnvProviderState
}.
End WorkflowDataProxy.
Abbreviation WorkflowDataProxy := WorkflowDataProxy.t.

(** ** The error normaliser *)

Module ErrorLike.
(** [{ message: string; stack?: string }] *)
Record t : Type := { message : string; stack : option string }.
End ErrorLike.
Abbreviation ErrorLike := ErrorLike.t.

Module NormalizedError.
Inductive Class : Type := SerializableError | ExecutionError.
(** The message is always there. *)
Record t : Type := {
  class : Class;
  message : string;
  stack : option string
}.
End NormalizedError.
Abbreviation NormalizedError := NormalizedError.t.

(** Modelled from the spec: [isErrorLike] of ./errors/error-like is not
    among the sources.  An object that looks like an error has a
    message-bearing shape; this is its view as an [ErrorLike], if it has
    that shape. *)
Definition asErrorLike (value : JsValue) : option ErrorLike :=
  let stringOf (v : JsValue) :=
    match v with
    | JString s => Some s
    | _ => None
    end in
  match value with
  | JObject properties | JCyclic properties =>
      match getProperty properties "message" with
      | JString message =>
          Some {| ErrorLike.message := message;
                  ErrorLike.stack := stringOf (getProperty properties "stack") |}
      | _ => None
      end
  | JError message stack =>
      Some {| ErrorLike.message := message; ErrorLike.stack := stack |}
  | _ => None
  end.

Definition isErrorLike (value : JsValue) : bool :=
  match asErrorLike value with
  | Some _ => true
  | None => false
  end.

(** Modelled from the spec: [makeSerializable] of
    ./errors/serializable-error is not among the sources.  A native error
    is normalised by copying message and stack and marking it
    serialisable. *)
Definition makeSerializable (message : string) (stack : option string) : NormalizedError :=
  {| NormalizedError.class := NormalizedError.SerializableError;
     NormalizedError.message := message;
     NormalizedError.stack := stack |}.

(** Modelled from the spec: the class [ExecutionError] of
    ./errors/execution-error is not among the sources.  A dedicated
    execution error carrying the message of the error-like it is built
    from. *)
Definition newExecutionError (error : ErrorLike) : NormalizedError :=
  {| NormalizedError.class := NormalizedError.ExecutionError;
     NormalizedError.message := ErrorLike.message error;
     NormalizedError.stack := ErrorLike.stack error |}.

(** Why the normaliser itself throws. *)
Inductive NormaliserFailure : Type :=
(** [JSON.stringify] threw *)
| StringifyFailed (error : JSON.TypeError)
(** [JSON.stringify] gave [undefined], so that the constructor, declared
    to take a message string, was handed none: no normalised error, whose
    message is always there, comes of it *)
| MessageMissing.

Definition toExecutionErrorIfNeeded (error : JsValue)
  : Completion NormaliserFailure NormalizedError :=
  match error with
  | JError message stack => Return (makeSerializable message stack)
  | _ =>
      match asErrorLike error with
      | Some errorLike => Return (newExecutionError errorLike)
      | None =>
          match JSON.stringify error with
          | Return (Some text) =>
              Return (newExecutionError {| ErrorLike.message := text;
                                           ErrorLike.stack := None |})
          | Return None => Throw MessageMissing
          | Throw typeError => Throw (StringifyFailed typeError)
          end
      end
  end.

(** [error.message] as a JavaScript value. *)
Definition messageValue (error : NormalizedError) : JsValue :=
  JString (NormalizedError.message error).

(** What a run function rejects with. *)
Inductive RunFailure : Type :=
(** [throw error], the normalised error *)
| Normalized (error : NormalizedError)
(** the normaliser threw inside the [catch] block *)
| NormaliserThrew (failure : NormaliserFailure).

(** What a [catch] block that rethrows throws for the caught value. *)
Definition rethrown (e : JsValue) : RunFailure :=
  match toExecutionErrorIfNeeded e with
  | Return error => Normalized error
  | Throw failure => NormaliserThrew failure
  end.


(** ** The capability surface *)

(** The host globals named in [getNativeVariables]. *)
Inductive NativeVariable : Type :=
| hostBuffer | hostFunction | hostEval
| hostSetTimeout | hostSetInterval | hostSetImmediate
| hostClearTimeout | hostClearInterval | hostClearImmediate
| hostBtoa | hostAtob
| hostTextDecoder | hostTextDecoderStream
| hostTextEncoder | hostTextEncoderStream
| hostFormData.

(** The properties of the object literal returned by
    [getNativeVariables], in source order. *)
Definition nativeVariableEntries : list (string * NativeVariable) :=
  [ ("Buffer", hostBuffer);
    ("Function", hostFunction);
    ("eval", hostEval);
    ("setTimeout", hostSetTimeout);
    ("setInterval", hostSetInterval);
    ("setImmediate", hostSetImmediate);
    ("clearTimeout", hostClearTimeout);
    ("clearInterval", hostClearInterval);
    ("clearImmediate", hostClearImmediate);
    ("btoa", hostBtoa);
    ("atob", hostAtob);
    ("TextDecoder", hostTextDecoder);
    ("TextDecoderStream", hostTextDecoderStream);
    ("TextEncoder", hostTextEncoder);
    ("TextEncoderStream", hostTextEncoderStream);
    ("FormData", hostFormData) ].

Definition getNativeVariables : gmap string NativeVariable :=
  list_to_map nativeVariableEntries.

(** The capability surface in the words of the specification: timer
    scheduling and cancellation primitives, a byte-buffer constructor, text
    encode and decode constructors and their streaming variants, and a
    multipart form-data constructor. *)
Definition specCapabilitySurface : gset string :=
  {[ "setTimeout"; "setInterval"; "setImmediate";
     "clearTimeout"; "clearInterval"; "clearImmediate";
     "Buffer";
     "TextEncoder"; "TextDecoder";
     "TextEncoderStream"; "TextDecoderStream";
     "FormData" ]}.

(** [{ ...object, ...source }]: the properties of [source] win. *)
Definition spread {V : Type} (object source : gmap string V) : gmap string V :=
  source ∪ object.

(** ** The module allow lists *)

Module RequireResolverOpts.
(** [null] (here [None]) permits every module. *)
Record t : Type := {
  allowedBuiltInModules : option (gset string);
  allowedExternalModules : option (gset string)
}.
End RequireResolverOpts.
Abbreviation RequireResolverOpts := RequireResolverOpts.t.

Module JsRunnerConfig.
Record t : Type := {
  allowedBuiltInModules : option string;
  allowedExternalModules : option string
}.
End JsRunnerConfig.
Abbreviation JsRunnerConfig := JsRunnerConfig.t.

Definition parseModuleAllowList (moduleList : string) : option (gset string) :=
  if String.eqb moduleList "*" then None
  else Some (list_to_set (List.map JsString.trim (JsString.split "," moduleList))).

(** [x ?? d] *)
Definition nullish {A : Type} (x : option A) (d : A) : A :=
  match x with
  | Some a => a
  | None => d
  end.
Infix "??" := nullish (at level 45, left associativity).

(** The options the constructor hands to [createRequireResolver]. *)
Definition requireResolverOpts (jsRunnerConfig : JsRunnerConfig) : RequireResolverOpts :=
  {| RequireResolverOpts.allowedBuiltInModules :=
       parseModuleAllowList (JsRunnerConfig.allowedBuiltInModules jsRunnerConfig ?? "");
     RequireResolverOpts.allowedExternalModules :=
       parseModuleAllowList (JsRunnerConfig.allowedExternalModules jsRunnerConfig ?? "") |}.

(** ** The runner *)

(** The console shim: its [log] forwards to the task with this id. *)
Record CustomConsole : Type := { logTaskId : string }.

(** The outcome of running code per item, together with the item indices
    for which the code was run in a context of its own, in order. *)
Module Run.
Record t (A : Type) : Type := {
  evaluated : list nat;
  outcome : Completion RunFailure A
}.
Arguments evaluated {A} _.
Arguments outcome {A} _.
End Run.

(** Why [executeTask] rejects. *)
Inductive TaskFailure : Type :=
| RequestFailed (reason : JsValue)
| AssertionFailed (message : string)
| ExecutionFailed (failure : RunFailure).

(** A value bound to a global name of the context of a run. *)
Inductive ContextValue (RequireResolver ProxyMember RpcMember : Type) : Type :=
| CRequire (resolver : RequireResolver)
| CModule
| CConsole (console : CustomConsole)
| CItems (items : list INodeExecutionData)
| CItem (item : option INodeExecutionData)
| CNative (native : NativeVariable)
| CDataProxy (member : ProxyMember)
| CRpc (member : RpcMember).
Arguments CRequire {_ _ _} resolver.
Arguments CModule {_ _ _}.
Arguments CConsole {_ _ _} console.
Arguments CItems {_ _ _} items.
Arguments CItem {_ _ _} item.
Arguments CNative {_ _ _} native.
Arguments CDataProxy {_ _ _} member.
Arguments CRpc {_ _ _} member.

(** What the runner uses of other packages and of the platform. *)
Class Host : Type := {
  RequireResolver : Type;
  ProxyMember : Type;
  RpcMember : Type;
  (** [createRequireResolver] of ./require-resolver *)
  createRequireResolver : RequireResolverOpts -> RequireResolver;
  (** [getAdditionalKeys] of n8n-core *)
  getAdditionalKeys : JsValue -> string -> IRunExecutionData -> JsValue;
  (** [WorkflowDataProxy.prototype.getDataProxy] of n8n-workflow *)
  getDataProxy : WorkflowDataProxy -> gmap string ProxyMember;
  (** [buildRpcCallObject] of the base class [TaskRunner] *)
  buildRpcCallObject : string -> gmap string RpcMember;
  (** [requestData] of the base class [TaskRunner], awaited *)
  requestData : string -> string -> Completion JsValue AllCodeTaskData;
  (** [runInNewContext] of node:vm, awaited: what the code returns or
      throws in the given context *)
  runInNewContext :
    string -> gmap string (ContextValue RequireResolver ProxyMember RpcMember) ->
    Completion JsValue JsValue;
  (** the two functions of ./result-validation *)
  validateRunForAllItemsOutput :
    JsValue -> Completion JsValue (list INodeExecutionData);
  validateRunForEachItemOutput :
    JsValue -> nat -> Completion JsValue (option INodeExecutionData)
}.

Abbreviation VmContext := (gmap string (ContextValue RequireResolver ProxyMember RpcMember)).

Section JsTaskRunner.

Context `{Host}.

(** The fields of a [JsTaskRunner] instance. *)
Record JsTaskRunner : Type := {
  requireResolver : RequireResolver;
  nodeTypes : JsValue
}.

Definition newJsTaskRunner (jsRunnerConfig : JsRunnerConfig) (nodeTypes : JsValue)
  : JsTaskRunner :=
  {| requireResolver := createRequireResolver (requireResolverOpts jsRunnerConfig);
     nodeTypes := nodeTypes |}.

Variable this : JsTaskRunner.

Definition createDataProxyArguments (allData : AllCodeTaskData) (workflow : Workflow)
    (itemIndex : nat) : WorkflowDataProxy :=
  {| WorkflowDataProxy.workflow := workflow;
     WorkflowDataProxy.runExecutionData := AllCodeTaskData.runExecutionData allData;
     WorkflowDataProxy.runIndex := AllCodeTaskData.runIndex allData;
     WorkflowDataProxy.itemIndex := itemIndex;
     WorkflowDataProxy.activeNodeName := AllCodeTaskData.activeNodeName allData;
     WorkflowDataProxy.connectionInputData := AllCodeTaskData.connectionInputData allData;
     WorkflowDataProxy.siblingParameters := AllCodeTaskData.siblingParameters allData;
     WorkflowDataProxy.mode := AllCodeTaskData.mode allData;
     WorkflowDataProxy.additionalKeys :=
       getAdditionalKeys (AllCodeTaskData.additionalData allData)
         (AllCodeTaskData.mode allData) (AllCodeTaskData.runExecutionData allData);
     WorkflowDataProxy.executeData := AllCodeTaskData.executeData allData;
     WorkflowDataProxy.defaultReturnRunIndex := AllCodeTaskData.defaultReturnRunIndex allData;
     WorkflowDataProxy.selfData := AllCodeTaskData.selfData allData;
     WorkflowDataProxy.contextNodeName := AllCodeTaskData.contextNodeName allData;
     WorkflowDataProxy.envProviderState :=
       AllCodeTaskData.envProviderState allData ??
         {| EnvProviderState.env := ∅;
            EnvProviderState.isEnvAccessBlocked := false;
            EnvProviderState.isProcessAvailable := true |} |}.

Definition createDataProxy (allData : AllCodeTaskData) (workflow : Workflow)
    (itemIndex : nat) : gmap string ProxyMember :=
  getDataProxy (createDataProxyArguments allData workflow itemIndex).

(** The context of the all-items run. *)
Definition allItemsContext (taskId : string) (allData : AllCodeTaskData)
    (workflow : Workflow) (customConsole : CustomConsole) : VmContext :=
  let dataProxy := createDataProxy allData workflow (AllCodeTaskData.itemIndex allData) in
  let inputItems := AllCodeTaskData.connectionInputData allData in
  spread (spread (spread
    (list_to_map
       [ ("require", CRequire (requireResolver this));
         ("module", CModule);
         ("console", CConsole customConsole);
         ("items", CItems inputItems) ])
    (CNative <$> getNativeVariables))
    (CDataProxy <$> dataProxy))
    (CRpc <$> buildRpcCallObject taskId).

(** The context of the run for the item at [index]. *)
Definition eachItemContext (taskId : string) (allData : AllCodeTaskData)
    (workflow : Workflow) (customConsole : CustomConsole) (index : nat) : VmContext :=
  let inputItems := AllCodeTaskData.connectionInputData allData in
  let item := inputItems !! index in
  let dataProxy := createDataProxy allData workflow index in
  spread (spread (spread
    (list_to_map
       [ ("require", CRequire (requireResolver this));
         ("module", CModule);
         ("console", CConsole customConsole);
         ("item", CItem item) ])
    (CNative <$> getNativeVariables))
    (CDataProxy <$> dataProxy))
    (CRpc <$> buildRpcCallObject taskId).

Definition newline : string := String (ascii_of_nat 10) EmptyString.

Definition allItemsWrapper (code : string) : string :=
  "globalThis.global = globalThis; module.exports = async function VmCodeWrapper() {"
    +:+ code +:+ newline +:+ "}()".

Definition eachItemWrapper (code : string) : string :=
  "module.exports = async function VmCodeWrapper() {" +:+ code +:+ newline +:+ "}()".

(** The record pushed when [continueOnFail] turns a failure into output. *)
Definition errorPayload (error : NormalizedError) : JsValue :=
  JObject [("error", messageValue error)].

Definition runForAllItems (taskId : string) (settings : JSExecSettings)
    (allData : AllCodeTaskData) (workflow : Workflow) (customConsole : CustomConsole)
  : Completion RunFailure (list INodeExecutionData) :=
  let context := allItemsContext taskId allData workflow customConsole in
  let tryBlock :=
    let! result := runInNewContext (allItemsWrapper (JSExecSettings.code settings)) context in
    match result with
    | JNull => Return []
    | _ => validateRunForAllItemsOutput result
    end in
  match tryBlock with
  | Return output => Return output
  | Throw e =>
      match toExecutionErrorIfNeeded e with
      | Throw failure => Throw (NormaliserThrew failure)
      | Return error =>
          if JSExecSettings.continueOnFail settings then
            Return [ {| INodeExecutionData.json := errorPayload error;
                        INodeExecutionData.binary := None;
                        INodeExecutionData.pairedItem := None |} ]
          else Throw (Normalized error)
      end
  end.

(** The [try] block of one iteration of [runForEachItem]: the record to
    push, if any. *)
Definition eachItemTryBlock (taskId : string) (settings : JSExecSettings)
    (allData : AllCodeTaskData) (workflow : Workflow) (customConsole : CustomConsole)
    (index : nat) : Completion JsValue (option INodeExecutionData) :=
  let context := eachItemContext taskId allData workflow customConsole index in
  let! result := runInNewContext (eachItemWrapper (JSExecSettings.code settings)) context in
  match result with
  | JNull => Return None
  | _ =>
      let! result := validateRunForEachItemOutput result index in
      match result with
      | Some result =>
          Return (Some
            match INodeExecutionData.binary result with
            | Some binary =>
                {| INodeExecutionData.json := INodeExecutionData.json result;
                   INodeExecutionData.pairedItem :=
                     Some {| INodeExecutionData.item := index |};
                   INodeExecutionData.binary := Some binary |}
            | None =>
                {| INodeExecutionData.json := INodeExecutionData.json result;
                   INodeExecutionData.pairedItem :=
                     Some {| INodeExecutionData.item := index |};
                   INodeExecutionData.binary := None |}
            end)
      | None => Return None
      end
  end.

(** The [for] loop of [runForEachItem], with [remaining] iterations to go
    from [index] on. *)
Fixpoint runForEachItemLoop (taskId : string) (settings : JSExecSettings)
    (allData : AllCodeTaskData) (workflow : Workflow) (customConsole : CustomConsole)
    (remaining index : nat) (returnData : list INodeExecutionData)
    (evaluated : list nat) : Run.t (list INodeExecutionData) :=
  match remaining with
  | O => {| Run.evaluated := evaluated; Run.outcome := Return returnData |}
  | S remaining' =>
      let continue := runForEachItemLoop taskId settings allData workflow customConsole
                        remaining' (S index) in
      match eachItemTryBlock taskId settings allData workflow customConsole index with
      | Return None => continue returnData (evaluated ++ [index])
      | Return (Some record) => continue (returnData ++ [record]) (evaluated ++ [index])
      | Throw e =>
          match toExecutionErrorIfNeeded e with
          | Throw failure =>
              {| Run.evaluated := evaluated ++ [index];
                 Run.outcome := Throw (NormaliserThrew failure) |}
          | Return error =>
              if negb (JSExecSettings.continueOnFail settings) then
                {| Run.evaluated := evaluated ++ [index];
                   Run.outcome := Throw (Normalized error) |}
              else
                continue
                  (returnData ++
                     [ {| INodeExecutionData.json := errorPayload error;
                          INodeExecutionData.pairedItem :=
                            Some {| INodeExecutionData.item := index |};
                          INodeExecutionData.binary := None |} ])
                  (evaluated ++ [index])
          end
      end
  end.

Definition runForEachItem (taskId : string) (settings : JSExecSettings)
    (allData : AllCodeTaskData) (workflow : Workflow) (customConsole : CustomConsole)
  : Run.t (list INodeExecutionData) :=
  let inputItems := AllCodeTaskData.connectionInputData allData in
  runForEachItemLoop taskId settings allData workflow customConsole
    (length inputItems) 0 [] [].

Definition executeTask (task : Task) : Completion TaskFailure TaskResultData :=
  match requestData (Task.taskId task) "all" with
  | Throw reason => Throw (RequestFailed reason)
  | Return allData =>
      match Task.settings task with
      | None => Throw (AssertionFailed "JS Code not sent to runner")
      | Some settings =>
          let workflow :=
            {| Workflow.parameters := AllCodeTaskData.workflow allData;
               Workflow.nodeTypes := nodeTypes this |} in
          let customConsole := {| logTaskId := Task.taskId task |} in
          let result :=
            if String.eqb (JSExecSettings.nodeMode settings) "runOnceForAllItems"
            then runForAllItems (Task.taskId task) settings allData workflow customConsole
            else Run.outcome
                   (runForEachItem (Task.taskId task) settings allData workflow customConsole) in
          match result with
          | Throw failure => Throw (ExecutionFailed failure)
          | Return result =>
              Return
                {| TaskResultData.result := result;
                   TaskResultData.customData :=
                     IRunExecutionData.metadata
                       (IRunExecutionData.resultData
                          (AllCodeTaskData.runExecutionData allData)) |}
          end
      end
  end.

End JsTaskRunner.

(** ** Notions used to state the properties *)

(** A string split on commas, in the words of the specification: there is
    at least one piece, the pieces hold no comma and, joined by commas, they
    give the string back. *)
Definition SplitOnCommas (moduleList : string) (parts : list string) : Prop :=
  parts <> [] /\
  JsString.join "," parts = moduleList /\
  Forall (fun part => JsString.contains "," part = false) parts.

(** An entry trimmed of white space: white space was removed at both ends,
    and none is left there. *)
Definition Trimmed (entry trimmed : string) : Prop :=
  (exists before after,
      entry = before +:+ trimmed +:+ after /\
      JsString.allWhiteSpace before = true /\
      JsString.allWhiteSpace after = true) /\
  (forall c, JsString.firstChar trimmed = Some c -> JsString.isWhiteSpace c = false) /\
  (forall c, JsString.lastChar trimmed = Some c -> JsString.isWhiteSpace c = false).

(** What [executeTask] makes of the outcome of a run. *)
Definition taskResultOf (allData : AllCodeTaskData)
    (run : Completion RunFailure (list INodeExecutionData))
  : Completion TaskFailure TaskResultData :=
  match run with
  | Throw failure => Throw (ExecutionFailed failure)
  | Return result =>
      Return {| TaskResultData.result := result;
                TaskResultData.customData :=
                  IRunExecutionData.metadata
                    (IRunExecutionData.resultData
                       (AllCodeTaskData.runExecutionData allData)) |}
  end.

(** The record an error leaves in per-item output under [continueOnFail]. *)
Definition errorRecord (error : NormalizedError) (index : nat) : INodeExecutionData :=
  {| INodeExecutionData.json := errorPayload error;
     INodeExecutionData.pairedItem := Some {| INodeExecutionData.item := index |};
     INodeExecutionData.binary := None |}.

Section EachItemNotions.

Context `{Host}.
Variables (this : JsTaskRunner) (taskId : string) (settings : JSExecSettings)
          (allData : AllCodeTaskData) (workflow : Workflow) (console : CustomConsole).

(** What the iteration at [index] appends to the output when the loop
    goes on after it. *)
Definition iterationOutput (index : nat) : option INodeExecutionData :=
  match eachItemTryBlock this taskId settings allData workflow console index with
  | Return output => output
  | Throw e =>
      match toExecutionErrorIfNeeded e with
      | Return error => Some (errorRecord error index)
      | Throw _ => None
      end
  end.

(** Whether the loop stops at the iteration at [index]: its [try] block
    throws and either the normaliser throws on the value caught or
    [continueOnFail] is unset. *)
Definition stopsAt (index : nat) : bool :=
  match eachItemTryBlock this taskId settings allData workflow console index with
  | Return _ => false
  | Throw e =>
      match toExecutionErrorIfNeeded e with
      | Throw _ => true
      | Return _ => negb (JSExecSettings.continueOnFail settings)
      end
  end.

(** [record] is what the iteration for the input item at [index] emitted:
    its validated result, or its error under [continueOnFail]. *)
Definition EmittedFor (record : INodeExecutionData) (index : nat) : Prop :=
  eachItemTryBlock this taskId settings allData workflow console index
  = Return (Some record) \/
  exists e error,
    eachItemTryBlock this taskId settings allData workflow console index = Throw e /\
    toExecutionErrorIfNeeded e = Return error /\
    JSExecSettings.continueOnFail settings = true /\
    record = errorRecord error index.

End EachItemNotions.

(** ** A concrete host, for examples *)

Module Example.

(** The number of an integer as a value; [undefined] outside the range. *)
Definition numberValue (n : Z) : JsValue :=
  match safeInteger n with
  | Some number => JNumber number
  | None => JUndefined
  end.

Definition inputItem (n : Z) : INodeExecutionData :=
  {| INodeExecutionData.json := JObject [("n", numberValue n)];
     INodeExecutionData.binary := None;
     INodeExecutionData.pairedItem := None |}.

(** A data bundle with three input items and no environment-provider
    state. *)
Definition allData : AllCodeTaskData :=
  {| AllCodeTaskData.workflow := JObject [];
     AllCodeTaskData.inputData := JObject [];
     AllCodeTaskData.node := JObject [];
     AllCodeTaskData.runExecutionData :=
       {| IRunExecutionData.resultData :=
            {| IRunExecutionData.runData := JObject [];
               IRunExecutionData.metadata := JUndefined |};
          IRunExecutionData.executionData := JUndefined |};
     AllCodeTaskData.runIndex := 0;
     AllCodeTaskData.itemIndex := 0;
     AllCodeTaskData.activeNodeName := "Code";
     AllCodeTaskData.connectionInputData := [inputItem 10; inputItem 20; inputItem 30];
     AllCodeTaskData.siblingParameters := JObject [];
     AllCodeTaskData.mode := "manual";
     AllCodeTaskData.envProviderState := None;
     AllCodeTaskData.executeData := None;
     AllCodeTaskData.defaultReturnRunIndex := 0;
     AllCodeTaskData.selfData := JObject [];
     AllCodeTaskData.contextNodeName := "Code";
     AllCodeTaskData.additionalData := JObject [] |}.

Definition workflow : Workflow :=
  {| Workflow.parameters := JObject []; Workflow.nodeTypes := JObject [] |}.

Definition console : CustomConsole := {| logTaskId := "task-1" |}.

Definition returnNull : string := "return null;".
Definition returnIndex : string := "return {json:{v:$itemIndex}};".
Definition throwAtOne : string :=
  "if ($itemIndex===1) throw new Error('boom'); return {json:{ok:true}};".
Definition throwUndefined : string := "throw undefined;".
Definition throwBigInt : string := "throw 1n;".
Definition throwString : string := "throw 'oops';".

(** The index the data proxy of a context was built for. *)
Definition itemIndexOf (context : gmap string (ContextValue RequireResolverOpts nat unit))
  : nat :=
  match context !! "$itemIndex" with
  | Some (CDataProxy index) => index
  | _ => 0
  end.

(** What the pieces of code above do when run: the function ignores
    the wrapper, which is the same for all of them. *)
Definition run (code : string)
    (context : gmap string (ContextValue RequireResolverOpts nat unit))
  : Completion JsValue JsValue :=
  let wraps body :=
    String.eqb code
      ("module.exports = async function VmCodeWrapper() {" +:+ body +:+
         String (ascii_of_nat 10) "}()") ||
    String.eqb code
      ("globalThis.global = globalThis; module.exports = async function VmCodeWrapper() {"
         +:+ body +:+ String (ascii_of_nat 10) "}()") in
  if wraps returnNull then Return JNull
  else if wraps returnIndex then
    Return (JObject [("json", JObject [("v", numberValue (Z.of_nat (itemIndexOf context)))])])
  else if wraps throwAtOne then
    if Nat.eqb (itemIndexOf context) 1
    then Throw (JObject [("message", JString "boom")])
    else Return (JObject [("json", JObject [("ok", JBool true)])])
  else if wraps throwUndefined then Throw JUndefined
  else if wraps throwBigInt then Throw (JBigInt 1)
  else if wraps throwString then Throw (JString "oops")
  else Return JUndefined.

Definition asItem (value : JsValue) : INodeExecutionData :=
  match value with
  | JObject properties =>
      {| INodeExecutionData.json := getProperty properties "json";
         INodeExecutionData.binary := None;
         INodeExecutionData.pairedItem := None |}
  | _ =>
      {| INodeExecutionData.json := value;
         INodeExecutionData.binary := None;
         INodeExecutionData.pairedItem := None |}
  end.

Definition host : Host :=
  {| RequireResolver := RequireResolverOpts;
     ProxyMember := nat;
     RpcMember := unit;
     createRequireResolver := fun opts => opts;
     getAdditionalKeys := fun _ _ _ => JObject [];
     getDataProxy := fun proxy => {[ "$itemIndex" := WorkflowDataProxy.itemIndex proxy ]};
     buildRpcCallObject := fun _ => ∅;
     requestData := fun _ _ => Return allData;
     runInNewContext := run;
     validateRunForAllItemsOutput := fun value =>
       match value with
       | JArray elements => Return (List.map asItem elements)
       | _ => Throw (JError "Code doesn't return items properly" None)
       end;
     validateRunForEachItemOutput := fun value _ =>
       match value with
       | JObject _ => Return (Some (asItem value))
       | JUndefined => Return None
       | _ => Throw (JError "Code doesn't return an object" None)
       end |}.

Definition runner : @JsTaskRunner host :=
  newJsTaskRunner
    {| JsRunnerConfig.allowedBuiltInModules := Some "crypto, path";
       JsRunnerConfig.allowedExternalModules := None |}
    (JObject []).

Definition settings (code nodeMode : string) (continueOnFail : bool) : JSExecSettings :=
  {| JSExecSettings.code := code;
     JSExecSettings.nodeMode := nodeMode;
     JSExecSettings.workflowMode := "manual";
     JSExecSettings.continueOnFail := continueOnFail;
     JSExecSettings.mode := "manual" |}.

End Example.

(** ** The console shim *)

(** A call sent to the orchestrator by [makeRpcCall]. *)
Module RpcCall.
Record t : Type := {
  taskId : string;
  method : string;
  params : list JsValue
}.
End RpcCall.
Abbreviation RpcCall := RpcCall.t.

Section ConsoleLog.

(** The text a function value converts to; [JFunction] does not hold it. *)
Variable functionText : string.

(** One argument of [log] as it stands in the line.  An object other than
    [null] (an array, a plain or cyclic object, an [Error]) is replaced by
    its JSON text, which may throw; [join] then writes [null] and
    [undefined] as nothing and any other value as its string conversion. *)
Definition logArgument (arg : JsValue) : Completion JSON.TypeError string :=
  match arg with
  | JArray _ | JObject _ | JError _ _ | JCyclic _ =>
      let! text := JSON.stringify arg in
      Return match text with
             | Some text => text
             | None => ""
             end
  | JNull | JUndefined => Return ""
  | JBool true => Return "true"
  | JBool false => Return "false"
  | JNumber n => Return (JSON.numberToString n)
  | JBigInt n => Return (JSON.decimal n)
  | JString s => Return s
  | JFunction => Return functionText
  end.

Definition logOutput (args : list JsValue) : Completion JSON.TypeError string :=
  let! pieces := mapC logArgument args in
  Return (JsString.join " " pieces).

(** [customConsole.log(...args)]: the call it makes, unless formatting the
    line throws. *)
Definition consoleLog (console : CustomConsole) (args : list JsValue)
  : Completion JSON.TypeError RpcCall :=
  let! line := logOutput args in
  Return {| RpcCall.taskId := logTaskId console;
            RpcCall.method := "logNodeOutput";
            RpcCall.params := [JString line] |}.

End ConsoleLog.

(** ** Further examples *)

Module Sample.

(** A data bundle that carries environment-provider state. *)
Definition envProviderState : EnvProviderState :=
  {| EnvProviderState.env := {[ "N8N_HOST" := "example.org" ]};
     EnvProviderState.isEnvAccessBlocked := true;
     EnvProviderState.isProcessAvailable := true |}.

Definition allData : AllCodeTaskData :=
  {| AllCodeTaskData.workflow := JObject [];
     AllCodeTaskData.inputData := JObject [];
     AllCodeTaskData.node := JObject [];
     AllCodeTaskData.runExecutionData :=
       {| IRunExecutionData.resultData :=
            {| IRunExecutionData.runData := JObject [];
               IRunExecutionData.metadata := JObject [("source", JString "bundle")] |};
          IRunExecutionData.executionData := JUndefined |};
     AllCodeTaskData.runIndex := 0;
     AllCodeTaskData.itemIndex := 0;
     AllCodeTaskData.activeNodeName := "Code";
     AllCodeTaskData.connectionInputData := [Example.inputItem 1; Example.inputItem 2];
     AllCodeTaskData.siblingParameters := JObject [];
     AllCodeTaskData.mode := "manual";
     AllCodeTaskData.envProviderState := Some envProviderState;
     AllCodeTaskData.executeData := None;
     AllCodeTaskData.defaultReturnRunIndex := 0;
     AllCodeTaskData.selfData := JObject [];
     AllCodeTaskData.contextNodeName := "Code";
     AllCodeTaskData.additionalData := JObject [] |}.

Definition task (code nodeMode : string) (continueOnFail : bool) : Task :=
  {| Task.taskId := "task-1";
     Task.settings := Some (Example.settings code nodeMode continueOnFail) |}.

Definition returnList : string := "return [{json:{a:1}}];".

(** A host whose data proxy also binds the name [Buffer], whose RPC object
    binds [helpers], which hands out the bundle above, and which knows the
    code [returnList] besides the code of the first examples. *)
Definition host : Host :=
  {| RequireResolver := RequireResolverOpts;
     ProxyMember := nat;
     RpcMember := unit;
     createRequireResolver := fun opts => opts;
     getAdditionalKeys := fun _ _ _ => JObject [];
     getDataProxy := fun proxy =>
       {[ "$itemIndex" := WorkflowDataProxy.itemIndex proxy; "Buffer" := 0 ]};
     buildRpcCallObject := fun _ => {[ "helpers" := tt ]};
     requestData := fun _ _ => Return allData;
     runInNewContext := fun code _ =>
       if String.eqb code
            ("globalThis.global = globalThis; module.exports = async function VmCodeWrapper() {"
               +:+ returnList +:+ String (ascii_of_nat 10) "}()")
       then Return (JArray [JObject [("json", JObject [("a", JNumber #1)])]])
       else Return JUndefined;
     validateRunForAllItemsOutput := fun value =>
       match value with
       | JArray elements => Return (List.map Example.asItem elements)
       | _ => Throw (JError "Code doesn't return items properly" None)
       end;
     validateRunForEachItemOutput := fun value _ =>
       match value with
       | JObject _ => Return (Some (Example.asItem value))
       | JUndefined => Return None
       | _ => Throw (JError "Code doesn't return an object" None)
       end |}.

Definition runner : @JsTaskRunner host :=
  newJsTaskRunner
    {| JsRunnerConfig.allowedBuiltInModules := Some "*";
       JsRunnerConfig.allowedExternalModules := Some "lodash" |}
    (JObject []).

End Sample.

(** * The API settings view

    Source: the Vue component [SettingsApiView].  The component is its
    [data], read and written by its hooks and methods; what it does to
    the stores, the toasts and the telemetry is the list of effects a
    method leaves, in order.  A method that awaits a store is given the
    outcome of that request and is modelled from call to settlement. *)

Module SettingsApiView.

Record ApiKey : Type := { id : string; label : string; apiKey : string }.

Record Data : Type := {
  loading : bool;
  mounted : bool;
  apiKeys : list ApiKey;
  swaggerUIEnabled : bool;
  apiDocsURL : string
}.

(** [data()] *)
Definition data : Data :=
  {| loading := false; mounted := false; apiKeys := [];
     swaggerUIEnabled := false; apiDocsURL := "" |}.

(** What the component reads of the stores. *)
Record Stores : Type := {
  isPublicApiEnabled : bool;
  baseUrl : string;
  publicApiPath : string;
  publicApiLatestVersion : SafeInteger;
  isSwaggerUIEnabled : bool;
  userIsTrialing : bool;
  loadingPlan : bool
}.

Inductive Effect : Type :=
| SetDocumentTitle (title : string)
| RequestApiKeys
| RequestCreateApiKey
| RequestDeleteApiKey (id : string)
| ShowError (error : JsValue) (title : string)
| ShowMessage (title : string)
| Track (event : string)
| AskConfirmation (description title : string)
| GoToUpgrade (source utm mode : string).

(** What the template shows. *)
Inductive View : Type :=
| KeyCard (label value : string) (disableCopy : bool) (hint note linkText link : string)
| UpgradeBox
| CreateBox (buttonText : string)
| NoBox.

Section Component.

(** [$locale.baseText], and two constants of @/constants. *)
Variable baseText : string -> string.
Variables DOCS_DOMAIN MODAL_CONFIRM : string.

(** Reading a property of [undefined]. *)
Definition undefinedProperty (property : string) : JsValue :=
  JError ("Cannot read properties of undefined (reading '" +:+ property +:+ "')") None.

(** The computed [isRedactedApiKey].  [apiKeys] is always an array, which
    is truthy, so the first [return] is never taken. *)
Definition isRedactedApiKey (this : Data) : Completion JsValue bool :=
  match apiKeys this with
  | [] => Throw (undefinedProperty "apiKey")
  | key :: _ => Return (JsString.contains "*" (apiKey key))
  end.

Definition getApiKeys (request : Completion JsValue (list ApiKey)) (this : Data)
  : Data * list Effect :=
  match request with
  | Return keys =>
      ({| loading := loading this; mounted := true; apiKeys := keys;
          swaggerUIEnabled := swaggerUIEnabled this; apiDocsURL := apiDocsURL this |},
       [RequestApiKeys])
  | Throw error =>
      ({| loading := loading this; mounted := true; apiKeys := apiKeys this;
          swaggerUIEnabled := swaggerUIEnabled this; apiDocsURL := apiDocsURL this |},
       [RequestApiKeys; ShowError error (baseText "settings.api.view.error")])
  end.

(** The hook [mounted()], with the request of [getApiKeys] settled. *)
Definition mountedHook (stores : Stores) (request : Completion JsValue (list ApiKey))
    (this : Data) : Data * list Effect :=
  let title := [SetDocumentTitle (baseText "settings.api")] in
  if negb (isPublicApiEnabled stores) then (this, title)
  else
    let (this, effects) := getApiKeys request this in
    let swaggerUIEnabled := isSwaggerUIEnabled stores in
    ({| loading := loading this; mounted := mounted this; apiKeys := apiKeys this;
        swaggerUIEnabled := swaggerUIEnabled;
        apiDocsURL :=
          if swaggerUIEnabled
          then baseUrl stores +:+ publicApiPath stores +:+ "/v" +:+
               JSON.numberToString (publicApiLatestVersion stores) +:+ "/docs"
          else "https://" +:+ DOCS_DOMAIN +:+ "/api/api-reference/" |},
     title ++ effects).

(** [this.loading = value] *)
Definition setLoading (value : bool) (this : Data) : Data :=
  {| loading := value; mounted := mounted this; apiKeys := apiKeys this;
     swaggerUIEnabled := swaggerUIEnabled this; apiDocsURL := apiDocsURL this |}.

(** The data while the request of [createApiKey] is pending. *)
Definition createApiKeyPending (this : Data) : Data := setLoading true this.

Definition createApiKey (request : Completion JsValue ApiKey) (this : Data)
  : Data * list Effect :=
  let this := setLoading true this in
  let track := Track "User clicked create API key button" in
  match request with
  | Return newApiKey =>
      (setLoading false
         {| loading := loading this; mounted := mounted this;
            apiKeys := apiKeys this ++ [newApiKey];
            swaggerUIEnabled := swaggerUIEnabled this; apiDocsURL := apiDocsURL this |},
       [RequestCreateApiKey; track])
  | Throw error =>
      (setLoading false this,
       [RequestCreateApiKey; ShowError error (baseText "settings.api.create.error"); track])
  end.

Definition deleteApiKey (request : string -> Completion JsValue unit) (this : Data)
  : Data * list Effect :=
  let track := Track "User clicked delete API key button" in
  let failed error := ShowError error (baseText "settings.api.delete.error") in
  match apiKeys this with
  | [] => (this, [failed (undefinedProperty "id"); track])
  | key :: _ =>
      match request (id key) with
      | Return _ =>
          ({| loading := loading this; mounted := mounted this; apiKeys := [];
              swaggerUIEnabled := swaggerUIEnabled this;
              apiDocsURL := apiDocsURL this |},
           [RequestDeleteApiKey (id key);
            ShowMessage (baseText "settings.api.delete.toast"); track])
      | Throw error => (this, [RequestDeleteApiKey (id key); failed error; track])
      end
  end.

(** [showDeleteModal], given what the confirmation resolved to. *)
Definition showDeleteModal (confirmed : string)
    (request : string -> Completion JsValue unit) (this : Data) : Data * list Effect :=
  let ask := AskConfirmation (baseText "settings.api.delete.description")
               (baseText "settings.api.delete.title") in
  if String.eqb confirmed MODAL_CONFIRM then
    let (this, effects) := deleteApiKey request this in (this, ask :: effects)
  else (this, [ask]).

Definition onUpgrade : list Effect :=
  [GoToUpgrade "settings-n8n-api" "upgrade-api" "redirect"].

Definition onCopy : list Effect := [Track "User clicked copy API key button"].

(** The template: the chain of [v-if], [v-else-if], [v-else-if]. *)
Definition render (stores : Stores) (this : Data) : Completion JsValue View :=
  if negb (Nat.eqb (length (apiKeys this)) 0) then
    match apiKeys this with
    | [] => Throw (undefinedProperty "label")
    | key :: _ =>
        let! redacted := isRedactedApiKey this in
        Return
          (KeyCard (label key) (apiKey key) redacted
             (if negb redacted then baseText "settings.api.view.copy" else "")
             (baseText ("settings.api.view." +:+
                        if swaggerUIEnabled this then "tryapi" else "more-details"))
             (baseText ("settings.api.view." +:+
                        if swaggerUIEnabled this then "apiPlayground" else "external-docs"))
             (apiDocsURL this))
    end
  else if negb (isPublicApiEnabled stores) && userIsTrialing stores then Return UpgradeBox
  else if mounted this && negb (loadingPlan stores) then
    Return (CreateBox (baseText (if loading this
                                 then "settings.api.create.button.loading"
                                 else "settings.api.create.button")))
  else Return NoBox.

End Component.

End SettingsApiView.

Module ViewSample.

Definition key : SettingsApiView.ApiKey :=
  {| SettingsApiView.id := "7"; SettingsApiView.label := "My API Key";
     SettingsApiView.apiKey := "n8n_api_******" |}.

Definition stores (enabled trialing : bool) : SettingsApiView.Stores :=
  {| SettingsApiView.isPublicApiEnabled := enabled;
     SettingsApiView.baseUrl := "http://localhost:5678/";
     SettingsApiView.publicApiPath := "api";
     SettingsApiView.publicApiLatestVersion := #1;
     SettingsApiView.isSwaggerUIEnabled := true;
     SettingsApiView.userIsTrialing := trialing;
     SettingsApiView.loadingPlan := false |}.

Definition baseText (key : string) : string := key.

End ViewSample.

(** * Properties *)

(** ** The data bundle adapter *)

Section DataProxy.

Context `{Host}.

(** A bundle that carries environment-provider state has it handed to the
    data proxy unchanged. *)
Lemma createDataProxy_given_envProviderState
    (allData : AllCodeTaskData) (workflow : Workflow) (itemIndex : nat)
    (state : EnvProviderState) :
  AllCodeTaskData.envProviderState allData = Some state ->
  WorkflowDataProxy.envProviderState (createDataProxyArguments allData workflow itemIndex)
  = state.
Proof. intros Hstate. simpl. now rewrite Hstate. Qed.

(** C1, as amended.  When the bundle omits the environment-provider state,
    the data proxy is built from a default whose environment is empty (no
    variable can be read from it), whose access-blocked flag is [false] and
    whose process-available flag is [true]. *)
Theorem createDataProxy_default_envProviderState
    (allData : AllCodeTaskData) (workflow : Workflow) (itemIndex : nat) :
  AllCodeTaskData.envProviderState allData = None ->
  exists proxy : WorkflowDataProxy,
    createDataProxy allData workflow itemIndex = getDataProxy proxy /\
    EnvProviderState.env (WorkflowDataProxy.envProviderState proxy) = ∅ /\
    (forall name : string,
        EnvProviderState.env (WorkflowDataProxy.envProviderState proxy) !! name = None) /\
    EnvProviderState.isEnvAccessBlocked (WorkflowDataProxy.envProviderState proxy) = false /\
    EnvProviderState.isProcessAvailable (WorkflowDataProxy.envProviderState proxy) = true.
Proof.
  intros Homitted.
  exists (createDataProxyArguments allData workflow itemIndex).
  split; [reflexivity|].
  simpl. rewrite Homitted. simpl.
  repeat split.
Qed.

End DataProxy.

(** C1 at a bundle without environment-provider state. *)
Lemma createDataProxy_default_envProviderState_example :
  exists proxy : WorkflowDataProxy,
    createDataProxy (H := Example.host) Example.allData Example.workflow 1
    = getDataProxy proxy /\
    EnvProviderState.env (WorkflowDataProxy.envProviderState proxy) = ∅ /\
    (forall name : string,
        EnvProviderState.env (WorkflowDataProxy.envProviderState proxy) !! name = None) /\
    EnvProviderState.isEnvAccessBlocked (WorkflowDataProxy.envProviderState proxy) = false /\
    EnvProviderState.isProcessAvailable (WorkflowDataProxy.envProviderState proxy) = true.
Proof.
  apply (createDataProxy_default_envProviderState (H := Example.host)
           Example.allData Example.workflow 1).
  reflexivity.
Defined.

(** C1 as stated fails: for a bundle that omits the state, the default
    handed to the data proxy does not have environment access blocked. *)
Lemma createDataProxy_default_access_not_blocked :
  AllCodeTaskData.envProviderState Example.allData = None /\
  EnvProviderState.isEnvAccessBlocked
    (WorkflowDataProxy.envProviderState
       (createDataProxyArguments (H := Example.host)
          Example.allData Example.workflow 0)) <> true.
Proof. split; [reflexivity | discriminate]. Qed.

(** ** The capability surface *)

Lemma getNativeVariables_dom :
  dom getNativeVariables =
  specCapabilitySurface ∪ {[ "Function"; "eval"; "btoa"; "atob" ]}.
Proof.
  unfold getNativeVariables. rewrite dom_list_to_map_L.
  unfold nativeVariableEntries, specCapabilitySurface. simpl.
  set_solver.
Qed.

Section Context.

Context `{Host}.

(** Where a name of a context is looked up: the RPC object first, then the
    data proxy, then the native variables, then the runner's own
    bindings. *)
Lemma spread_lookup (base : VmContext) (dataProxy : gmap string ProxyMember)
    (rpc : gmap string RpcMember) (name : string) :
  spread (spread (spread base (CNative <$> getNativeVariables))
            (CDataProxy <$> dataProxy)) (CRpc <$> rpc) !! name
  = match rpc !! name with
    | Some member => Some (CRpc member)
    | None =>
        match dataProxy !! name with
        | Some member => Some (CDataProxy member)
        | None =>
            match getNativeVariables !! name with
            | Some native => Some (CNative native)
            | None => base !! name
            end
        end
    end.
Proof.
  unfold spread. rewrite !lookup_union, !lookup_fmap.
  destruct (rpc !! name), (dataProxy !! name), (getNativeVariables !! name),
    (base !! name); reflexivity.
Qed.

(** A host primitive found in a context assembled the way both run
    functions do is one of the native variables, under its own name. *)
Lemma native_in_context
    (base : VmContext) (dataProxy : gmap string ProxyMember)
    (rpc : gmap string RpcMember) (name : string) (native : NativeVariable) :
  (forall other, base !! name <> Some (CNative other)) ->
  spread (spread (spread base (CNative <$> getNativeVariables))
            (CDataProxy <$> dataProxy)) (CRpc <$> rpc) !! name
  = Some (CNative native) ->
  getNativeVariables !! name = Some native.
Proof.
  intros Hbase. unfold spread.
  rewrite !lookup_union_Some_raw, !lookup_fmap_Some.
  intros [(member & Heq & _) | (_ & [(member & Heq & _) | (_ & [Hnative | (_ & Hin)])])].
  - discriminate.
  - discriminate.
  - destruct Hnative as (found & Heq & Hfound). now injection Heq as ->.
  - now apply Hbase in Hin.
Qed.

Lemma allItemsContext_native (this : JsTaskRunner) (taskId : string)
    (allData : AllCodeTaskData) (workflow : Workflow) (console : CustomConsole)
    (name : string) (native : NativeVariable) :
  allItemsContext this taskId allData workflow console !! name = Some (CNative native) ->
  getNativeVariables !! name = Some native.
Proof.
  apply native_in_context. intros other Hin.
  apply elem_of_list_to_map_2 in Hin.
  rewrite !elem_of_cons, elem_of_nil in Hin.
  destruct Hin as [Heq | [Heq | [Heq | [Heq | []]]]]; discriminate.
Qed.

Lemma eachItemContext_native (this : JsTaskRunner) (taskId : string)
    (allData : AllCodeTaskData) (workflow : Workflow) (console : CustomConsole)
    (index : nat) (name : string) (native : NativeVariable) :
  eachItemContext this taskId allData workflow console index !! name
  = Some (CNative native) ->
  getNativeVariables !! name = Some native.
Proof.
  apply native_in_context. intros other Hin.
  apply elem_of_list_to_map_2 in Hin.
  rewrite !elem_of_cons, elem_of_nil in Hin.
  destruct Hin as [Heq | [Heq | [Heq | [Heq | []]]]]; discriminate.
Qed.

(** The code run for [index] sees the input item at [index] as [item],
    unless the data proxy or the RPC object binds that name. *)
Lemma eachItemContext_item (this : JsTaskRunner) (taskId : string)
    (allData : AllCodeTaskData) (workflow : Workflow) (console : CustomConsole)
    (index : nat) :
  createDataProxy allData workflow index !! "item" = None ->
  buildRpcCallObject taskId !! "item" = None ->
  eachItemContext this taskId allData workflow console index !! "item"
  = Some (CItem (AllCodeTaskData.connectionInputData allData !! index)).
Proof.
  intros Hproxy Hrpc. unfold eachItemContext, spread.
  rewrite lookup_union_r by now rewrite lookup_fmap, Hrpc.
  rewrite lookup_union_r by now rewrite lookup_fmap, Hproxy.
  rewrite lookup_union_r by (rewrite lookup_fmap; vm_compute; reflexivity).
  reflexivity.
Qed.

(** C2, as amended.  The object of [getNativeVariables] binds exactly
    sixteen names: the twelve the specification lists (timers, [Buffer],
    the text encoders and decoders with their stream variants, [FormData])
    and, besides, [Function], [eval], [btoa] and [atob].  Each of them is
    merged into the context of either run function: it is bound there to
    its host primitive unless the data proxy or the RPC object, spread
    after it, bind the same name.  A host primitive bound in such a context
    is one of these, under its own name; and the names bound there are
    those sixteen, the runner's own four ([require], [module], [console]
    and the input) and the members of the data proxy and of the RPC
    object, no other. *)
Theorem capability_surface :
  dom getNativeVariables
  = specCapabilitySurface ∪ {[ "Function"; "eval"; "btoa"; "atob" ]} /\
  forall (this : JsTaskRunner) (taskId : string) (allData : AllCodeTaskData)
         (workflow : Workflow) (console : CustomConsole) (index : nat),
    dom (allItemsContext this taskId allData workflow console)
    = {[ "require"; "module"; "console"; "items" ]}
      ∪ dom getNativeVariables
      ∪ dom (createDataProxy allData workflow (AllCodeTaskData.itemIndex allData))
      ∪ dom (buildRpcCallObject taskId) /\
    dom (eachItemContext this taskId allData workflow console index)
    = {[ "require"; "module"; "console"; "item" ]}
      ∪ dom getNativeVariables
      ∪ dom (createDataProxy allData workflow index)
      ∪ dom (buildRpcCallObject taskId) /\
    forall (name : string) (native : NativeVariable),
      (getNativeVariables !! name = Some native ->
       buildRpcCallObject taskId !! name = None ->
       (createDataProxy allData workflow (AllCodeTaskData.itemIndex allData) !! name
        = None ->
        allItemsContext this taskId allData workflow console !! name
        = Some (CNative native)) /\
       (createDataProxy allData workflow index !! name = None ->
        eachItemContext this taskId allData workflow console index !! name
        = Some (CNative native))) /\
      (allItemsContext this taskId allData workflow console !! name
       = Some (CNative native) \/
       eachItemContext this taskId allData workflow console index !! name
       = Some (CNative native) ->
       getNativeVariables !! name = Some native /\
       name ∈ specCapabilitySurface ∪ {[ "Function"; "eval"; "btoa"; "atob" ]}).
Proof.
  split; [apply getNativeVariables_dom|].
  intros this taskId allData workflow console index.
  split; [|split].
  - unfold allItemsContext, spread.
    rewrite !dom_union_L, !dom_fmap_L, dom_list_to_map_L. simpl.
    apply set_eq. intros x. rewrite !elem_of_union, elem_of_empty. tauto.
  - unfold eachItemContext, spread.
    rewrite !dom_union_L, !dom_fmap_L, dom_list_to_map_L. simpl.
    apply set_eq. intros x. rewrite !elem_of_union, elem_of_empty. tauto.
  - intros name native. split.
    + intros Hnative Hrpc.
      unfold allItemsContext, eachItemContext. rewrite !spread_lookup, Hrpc, Hnative.
      split; intros ->; reflexivity.
    + intros Hbound.
      assert (getNativeVariables !! name = Some native) as Hnative.
      { destruct Hbound as [Hall | Heach].
        - eapply allItemsContext_native, Hall.
        - eapply eachItemContext_native, Heach. }
      split; [exact Hnative|].
      rewrite <- getNativeVariables_dom. apply elem_of_dom. now exists native.
Qed.

End Context.

(** C2 at the contexts of the first example host: [eval] is bound there
    to the host's [eval]. *)
Lemma capability_surface_example :
  allItemsContext (H := Example.host) Example.runner "task-1" Example.allData
    Example.workflow Example.console !! "eval" = Some (CNative hostEval) /\
  eachItemContext (H := Example.host) Example.runner "task-1" Example.allData
    Example.workflow Example.console 2 !! "eval" = Some (CNative hostEval).
Proof.
  pose proof (proj1 (proj2 (proj2 (proj2 (capability_surface (H := Example.host))
                                      Example.runner "task-1" Example.allData
                                      Example.workflow Example.console 2))
                       "eval" hostEval)
                eq_refl eq_refl) as [Hall Heach].
  split; [apply Hall | apply Heach]; reflexivity.
Defined.

(** C2 as stated fails: [eval] is bound by [getNativeVariables], and so it
    is in the context of a run, yet it is none of the primitives the
    specification lists. *)
Lemma capability_surface_binds_eval :
  getNativeVariables !! "eval" = Some hostEval /\
  allItemsContext (H := Example.host) Example.runner "task-1" Example.allData
    Example.workflow Example.console !! "eval" = Some (CNative hostEval) /\
  ("eval" ∉ specCapabilitySurface) /\
  dom getNativeVariables <> specCapabilitySurface.
Proof.
  assert ("eval" ∉ specCapabilitySurface) as Hout.
  { unfold specCapabilitySurface. rewrite !not_elem_of_union, !not_elem_of_singleton.
    repeat split; discriminate. }
  split; [vm_compute; reflexivity|].
  split; [vm_compute; reflexivity|].
  split; [exact Hout|].
  intros Heq. apply Hout. rewrite <- Heq. apply elem_of_dom.
  exists hostEval. vm_compute. reflexivity.
Qed.

(** ** The error normaliser *)

Lemma toExecutionErrorIfNeeded_native (message : string) (stack : option string) :
  toExecutionErrorIfNeeded (JError message stack)
  = Return (makeSerializable message stack).
Proof. reflexivity. Qed.

Lemma toExecutionErrorIfNeeded_errorLike (value : JsValue) (errorLike : ErrorLike) :
  (forall message stack, value <> JError message stack) ->
  asErrorLike value = Some errorLike ->
  toExecutionErrorIfNeeded value = Return (newExecutionError errorLike).
Proof.
  intros Hnative Hlike. destruct value; simpl in *; try discriminate.
  - now rewrite Hlike.
  - now contradiction (Hnative message stack).
  - now rewrite Hlike.
Qed.

Lemma toExecutionErrorIfNeeded_other (value : JsValue) :
  (forall message stack, value <> JError message stack) ->
  isErrorLike value = false ->
  toExecutionErrorIfNeeded value
  = match JSON.stringify value with
    | Return (Some text) =>
        Return (newExecutionError {| ErrorLike.message := text;
                                     ErrorLike.stack := None |})
    | Return None => Throw MessageMissing
    | Throw typeError => Throw (StringifyFailed typeError)
    end.
Proof.
  intros Hnative. unfold isErrorLike. intros Hlike.
  destruct value; try reflexivity;
    try (unfold toExecutionErrorIfNeeded;
         destruct (asErrorLike _); [discriminate | reflexivity]).
  now contradiction (Hnative message stack).
Qed.

(** X27.  A thrown value that is neither an [Error] nor error-like and for
    which [JSON.stringify] gives a text yields an execution error with
    that text as its message: the thrown string [oops] yields the quoted
    text, the thrown number 42 yields [42]. *)
Theorem toExecutionErrorIfNeeded_serialized :
  (forall (value : JsValue) (text : string),
      (forall message stack, value <> JError message stack) ->
      isErrorLike value = false ->
      JSON.stringify value = Return (Some text) ->
      exists error,
        toExecutionErrorIfNeeded value = Return error /\
        NormalizedError.message error = text) /\
  (exists error,
      toExecutionErrorIfNeeded (JString "oops") = Return error /\
      NormalizedError.message error
      = String JSON.doubleQuote ("oops" +:+ String JSON.doubleQuote "")) /\
  (exists error,
      toExecutionErrorIfNeeded (JNumber #42) = Return error /\
      NormalizedError.message error = "42").
Proof.
  split; [|split; eexists; split; reflexivity].
  intros value text Hnative Hlike Htext.
  rewrite toExecutionErrorIfNeeded_other, Htext by assumption.
  eexists. split; reflexivity.
Qed.

(** C3.  At the thrown value [undefined] the normaliser does not yield an
    error carrying a message string.  The value is neither an [Error] nor
    error-like, and [JSON.stringify] gives [undefined] for it, not a text:
    the constructor is handed no message, and no error carrying a message
    string comes back. *)
Theorem toExecutionErrorIfNeeded_undefined :
  isErrorLike JUndefined = false /\
  JSON.stringify JUndefined = Return None /\
  toExecutionErrorIfNeeded JUndefined = Throw MessageMissing /\
  forall error, toExecutionErrorIfNeeded JUndefined <> Return error.
Proof. repeat split. discriminate. Qed.

(** X28.  The normaliser itself throws on a thrown BigInt and on a thrown
    object with a cycle that has no message string, for [JSON.stringify]
    throws on them. *)
Theorem toExecutionErrorIfNeeded_not_serializable (n : Z)
    (properties : list (string * JsValue)) :
  toExecutionErrorIfNeeded (JBigInt n) = Throw (StringifyFailed JSON.NotSerializable) /\
  (asErrorLike (JCyclic properties) = None ->
   toExecutionErrorIfNeeded (JCyclic properties)
   = Throw (StringifyFailed JSON.NotSerializable)).
Proof.
  split; [reflexivity|]. intros Hlike.
  unfold toExecutionErrorIfNeeded. now rewrite Hlike.
Qed.

(** ** The execution engine *)

Section Engine.

Context `{Host}.
Variables (this : JsTaskRunner) (taskId : string) (settings : JSExecSettings)
          (allData : AllCodeTaskData) (workflow : Workflow) (console : CustomConsole).

Local Abbreviation inputItems := (AllCodeTaskData.connectionInputData allData).
Local Abbreviation allItemsResult :=
  (runInNewContext (allItemsWrapper (JSExecSettings.code settings))
     (allItemsContext this taskId allData workflow console)).
Local Abbreviation eachItemResult index :=
  (runInNewContext (eachItemWrapper (JSExecSettings.code settings))
     (eachItemContext this taskId allData workflow console index)).
Local Abbreviation tryBlock := (eachItemTryBlock this taskId settings allData workflow console).
Local Abbreviation loop := (runForEachItemLoop this taskId settings allData workflow console).

(** *** All items *)

(** C7.  When the code evaluates to [null], the all-items run returns the
    empty output, whatever the input items are. *)
Theorem runForAllItems_null :
  allItemsResult = Return JNull ->
  runForAllItems this taskId settings allData workflow console = Return [].
Proof. intros Hnull. unfold runForAllItems. now rewrite Hnull. Qed.

(** What the [catch] block of the all-items run makes of a value thrown by
    the code. *)
Lemma runForAllItems_catch (e : JsValue) :
  allItemsResult = Throw e ->
  runForAllItems this taskId settings allData workflow console
  = match toExecutionErrorIfNeeded e with
    | Throw failure => Throw (NormaliserThrew failure)
    | Return error =>
        if JSExecSettings.continueOnFail settings
        then Return [ {| INodeExecutionData.json :=
                           JObject [("error", messageValue error)];
                         INodeExecutionData.binary := None;
                         INodeExecutionData.pairedItem := None |} ]
        else Throw (Normalized error)
    end.
Proof. intros Hthrows. unfold runForAllItems. now rewrite Hthrows. Qed.

(** A result rejected by the validation takes the same way. *)
Lemma runForAllItems_invalid (result e : JsValue) :
  allItemsResult = Return result ->
  result <> JNull ->
  validateRunForAllItemsOutput result = Throw e ->
  runForAllItems this taskId settings allData workflow console
  = match toExecutionErrorIfNeeded e with
    | Throw failure => Throw (NormaliserThrew failure)
    | Return error =>
        if JSExecSettings.continueOnFail settings
        then Return [ {| INodeExecutionData.json := errorPayload error;
                         INodeExecutionData.binary := None;
                         INodeExecutionData.pairedItem := None |} ]
        else Throw (Normalized error)
    end.
Proof.
  intros Hresult Hnotnull Hinvalid. unfold runForAllItems. rewrite Hresult. simpl.
  destruct result; try contradiction; now rewrite Hinvalid.
Qed.

(** When the normaliser throws on the value caught, the all-items run
    rejects with that, [continueOnFail] or not. *)
Lemma runForAllItems_normaliser_throws (e : JsValue) (failure : NormaliserFailure) :
  allItemsResult = Throw e ->
  toExecutionErrorIfNeeded e = Throw failure ->
  runForAllItems this taskId settings allData workflow console
  = Throw (NormaliserThrew failure).
Proof. intros Hthrows Hfails. now rewrite (runForAllItems_catch e), Hfails. Qed.

(** *** Each item *)

Local Abbreviation output := (iterationOutput this taskId settings allData workflow console).
Local Abbreviation Emitted := (EmittedFor this taskId settings allData workflow console).
Local Abbreviation backReference index := (Some {| INodeExecutionData.item := index |}).

Lemma tryBlock_null (index : nat) :
  eachItemResult index = Return JNull -> tryBlock index = Return None.
Proof. intros Hnull. unfold eachItemTryBlock. now rewrite Hnull. Qed.

(** A validated result is pushed with the index of its iteration. *)
Lemma tryBlock_pairedItem (index : nat) (record : INodeExecutionData) :
  tryBlock index = Return (Some record) ->
  INodeExecutionData.pairedItem record = backReference index.
Proof.
  unfold eachItemTryBlock.
  destruct (eachItemResult index) as [result|e]; simpl; [|discriminate].
  assert (forall validated : Completion JsValue (option INodeExecutionData),
             (let! result := validated in
              match result with
              | Some result =>
                  Return (Some
                    match INodeExecutionData.binary result with
                    | Some binary =>
                        {| INodeExecutionData.json := INodeExecutionData.json result;
                           INodeExecutionData.pairedItem := backReference index;
                           INodeExecutionData.binary := Some binary |}
                    | None =>
                        {| INodeExecutionData.json := INodeExecutionData.json result;
                           INodeExecutionData.pairedItem := backReference index;
                           INodeExecutionData.binary := None |}
                    end)
              | None => Return None
              end) = Return (Some record) ->
             INodeExecutionData.pairedItem record = backReference index) as Hpush.
  { intros [[validated|]|e]; simpl; try discriminate.
    intros [= <-]. now destruct (INodeExecutionData.binary validated). }
  destruct result; try apply Hpush. discriminate.
Qed.

Local Abbreviation stops := (stopsAt this taskId settings allData workflow console).

Lemma stopsAt_returns (index : nat) (pushed : option INodeExecutionData) :
  tryBlock index = Return pushed -> stops index = false.
Proof. intros Htry. unfold stopsAt. now rewrite Htry. Qed.

Lemma stopsAt_unset (index : nat) (e : JsValue) :
  JSExecSettings.continueOnFail settings = false ->
  tryBlock index = Throw e -> stops index = true.
Proof.
  intros Hunset Htry. unfold stopsAt. rewrite Htry, Hunset.
  now destruct (toExecutionErrorIfNeeded e).
Qed.

(** An iteration that throws and does not stop the loop: the value caught
    is normalised and [continueOnFail] is set. *)
Lemma stopsAt_goes_on (index : nat) (e : JsValue) :
  stops index = false ->
  tryBlock index = Throw e ->
  JSExecSettings.continueOnFail settings = true /\
  exists error, toExecutionErrorIfNeeded e = Return error.
Proof.
  unfold stopsAt. intros Hgoes Htry. rewrite Htry in Hgoes.
  destruct (toExecutionErrorIfNeeded e) as [error|failure]; [|discriminate].
  split; [|now exists error].
  now destruct (JSExecSettings.continueOnFail settings).
Qed.

(** The loop runs to its end when no iteration stops it. *)
Lemma loop_completes (remaining index : nat)
    (returnData : list INodeExecutionData) (evaluated : list nat) :
  (forall k, index <= k < index + remaining -> stops k = false) ->
  loop remaining index returnData evaluated
  = {| Run.evaluated := evaluated ++ seq index remaining;
       Run.outcome := Return (returnData ++ omap output (seq index remaining)) |}.
Proof.
  revert index returnData evaluated.
  induction remaining as [|remaining IH]; intros index returnData evaluated Hgoes; simpl.
  - now rewrite !app_nil_r.
  - assert (stops index = false) as Hindex by (apply Hgoes; lia).
    unfold iterationOutput at 1.
    destruct (tryBlock index) as [[record|]|e] eqn:Htry.
    + rewrite IH by (intros k ?; apply Hgoes; lia).
      now rewrite <- !app_assoc.
    + rewrite IH by (intros k ?; apply Hgoes; lia).
      now rewrite <- !app_assoc.
    + destruct (stopsAt_goes_on index e Hindex Htry) as (Hflag & error & Herror).
      rewrite Herror, Hflag. simpl.
      rewrite IH by (intros k ?; apply Hgoes; lia).
      now rewrite <- !app_assoc.
Qed.

(** The loop stops at the first iteration that stops it, throwing what its
    [catch] block rethrows. *)
Lemma loop_aborts (remaining index : nat)
    (returnData : list INodeExecutionData) (evaluated : list nat)
    (first : nat) (e : JsValue) :
  index <= first < index + remaining ->
  (forall k, index <= k < first -> stops k = false) ->
  tryBlock first = Throw e ->
  stops first = true ->
  loop remaining index returnData evaluated
  = {| Run.evaluated := evaluated ++ seq index (S (first - index));
       Run.outcome := Throw (rethrown e) |}.
Proof.
  revert index returnData evaluated.
  induction remaining as [|remaining IH];
    intros index returnData evaluated Hrange Hbefore Hfirst Hstops; [lia|].
  cbn [runForEachItemLoop].
  destruct (decide (index = first)) as [->|Hlater].
  - rewrite Hfirst. unfold stopsAt in Hstops. rewrite Hfirst in Hstops.
    unfold rethrown. rewrite Nat.sub_diag.
    destruct (toExecutionErrorIfNeeded e) as [error|failure]; [|reflexivity].
    now rewrite Hstops.
  - assert (forall data,
               loop remaining (S index) data (evaluated ++ [index])
               = {| Run.evaluated := evaluated ++ seq index (S (first - index));
                    Run.outcome := Throw (rethrown e) |}) as Hrest.
    { intros data. rewrite IH; [|lia| |assumption..].
      - replace (first - index) with (S (first - S index)) by lia.
        now rewrite <- app_assoc.
      - intros k ?. apply Hbefore. lia. }
    assert (stops index = false) as Hindex by (apply Hbefore; lia).
    destruct (tryBlock index) as [[record|]|e'] eqn:Htry.
    + now apply Hrest.
    + now apply Hrest.
    + destruct (stopsAt_goes_on index e' Hindex Htry) as (Hflag & error & Herror).
      rewrite Herror, Hflag. simpl. now apply Hrest.
Qed.

(** Up to any bound, either no iteration stops the loop or there is a
    first one that does. *)
Lemma first_stop (bound : nat) :
  (forall k, k < bound -> stops k = false) \/
  (exists first,
      first < bound /\ stops first = true /\
      forall k, k < first -> stops k = false).
Proof.
  induction bound as [|bound [Hnone | (first & Hlt & Hfirst & Hbefore)]].
  - left. intros k ?. lia.
  - destruct (stops bound) eqn:Hbound.
    + right. exists bound. split; [lia|]. now split.
    + left. intros k Hk. destruct (decide (k = bound)) as [->|?]; [assumption|].
      apply Hnone. lia.
  - right. exists first. split; [lia|]. now split.
Qed.

(** The two ways a per-item run can go. *)
Lemma runForEachItem_cases :
  ((forall k, k < length inputItems -> stops k = false) /\
   runForEachItem this taskId settings allData workflow console
   = {| Run.evaluated := seq 0 (length inputItems);
        Run.outcome := Return (omap output (seq 0 (length inputItems))) |}) \/
  (exists first e,
      first < length inputItems /\
      tryBlock first = Throw e /\
      stops first = true /\
      (forall k, k < first -> stops k = false) /\
      runForEachItem this taskId settings allData workflow console
      = {| Run.evaluated := seq 0 (S first);
           Run.outcome := Throw (rethrown e) |}).
Proof.
  unfold runForEachItem.
  destruct (first_stop (length inputItems)) as [Hnone | (first & Hlt & Hfirst & Hbefore)].
  - left. split; [assumption|]. apply loop_completes. intros k ?. apply Hnone. lia.
  - right. destruct (tryBlock first) as [pushed|e] eqn:Htry.
    { rewrite (stopsAt_returns first pushed Htry) in Hfirst. discriminate. }
    exists first, e. repeat (split; [assumption|]).
    rewrite (loop_aborts _ _ _ _ first e); try assumption.
    + now rewrite Nat.sub_0_r.
    + lia.
    + intros k ?. apply Hbefore. lia.
Qed.

Lemma tryBlock_throws (index : nat) (e : JsValue) :
  eachItemResult index = Throw e -> tryBlock index = Throw e.
Proof. intros Hthrows. unfold eachItemTryBlock. now rewrite Hthrows. Qed.

Lemma output_emitted (index : nat) (record : INodeExecutionData) :
  stops index = false ->
  output index = Some record ->
  INodeExecutionData.pairedItem record = backReference index /\ Emitted record index.
Proof.
  intros Hgoes. unfold iterationOutput, EmittedFor.
  destruct (tryBlock index) as [pushed|e] eqn:Htry.
  - intros ->. split; [now apply tryBlock_pairedItem | now left].
  - destruct (stopsAt_goes_on index e Hgoes Htry) as (Hflag & error & Herror).
    rewrite Herror. intros [= <-]. split; [reflexivity|].
    right. exists e, error. eauto.
Qed.

(** The records of the iterations from [index] on: their back references
    are increasing indices of that range, each the index of the iteration
    that emitted the record. *)
Lemma output_records (remaining index : nat) :
  (forall k, index <= k < index + remaining -> stops k = false) ->
  exists indices : list nat,
    List.map INodeExecutionData.pairedItem (omap output (seq index remaining))
    = List.map (fun i => backReference i) indices /\
    StronglySorted lt indices /\
    Forall (fun i => index <= i < index + remaining) indices /\
    Forall2 Emitted (omap output (seq index remaining)) indices.
Proof.
  revert index. induction remaining as [|remaining IH]; intros index Hgoes.
  - exists []. repeat split; constructor.
  - destruct (IH (S index)) as (indices & Hrefs & Hsorted & Hrange & Hemitted).
    { intros k ?. apply Hgoes. lia. }
    assert (Forall (fun i => index <= i < index + S remaining) indices) as Hwider.
    { eapply Forall_impl; [exact Hrange|]. simpl. intros i ?. lia. }
    assert (omap output (seq index (S remaining))
            = match output index with
              | Some record => record :: omap output (seq (S index) remaining)
              | None => omap output (seq (S index) remaining)
              end) as -> by reflexivity.
    destruct (output index) as [record|] eqn:Houtput.
    + destruct (output_emitted index record) as [Href Hrecord]; [|assumption|].
      { apply Hgoes. lia. }
      exists (index :: indices). rewrite !map_cons, Href, Hrefs.
      split; [reflexivity|]. split; [|split].
      * constructor; [assumption|].
        eapply Forall_impl; [exact Hrange|]. simpl. intros i ?. lia.
      * constructor; [lia | assumption].
      * now constructor.
    + exists indices. now repeat split.
Qed.

(** The records of a per-item run that returns: helper shared by the
    properties below. *)
Lemma runForEachItem_records (records : list INodeExecutionData) :
  Run.outcome (runForEachItem this taskId settings allData workflow console)
  = Return records ->
  exists indices : list nat,
    List.map INodeExecutionData.pairedItem records
    = List.map (fun i => backReference i) indices /\
    StronglySorted lt indices /\
    Forall (fun i => i < length inputItems) indices /\
    Forall2 Emitted records indices.
Proof.
  destruct runForEachItem_cases as [[Hgoes ->] | (first & e & _ & _ & _ & _ & ->)];
    simpl; [|discriminate].
  intros [= <-].
  destruct (output_records (length inputItems) 0)
    as (indices & Hrefs & Hsorted & Hrange & Hemitted).
  { intros k Hk. apply Hgoes. lia. }
  exists indices. repeat (split; [assumption|]).
  split; [|assumption].
  eapply Forall_impl; [exact Hrange|]. simpl. intros i ?. lia.
Qed.

(** C5.  Every record of a per-item run carries as back reference the
    index of the input item whose iteration emitted it, be it a validated
    result or an error under [continueOnFail]; along the output these
    indices are strictly increasing and within the input. *)
Theorem runForEachItem_pairedItem (records : list INodeExecutionData) :
  Run.outcome (runForEachItem this taskId settings allData workflow console)
  = Return records ->
  exists indices : list nat,
    List.map INodeExecutionData.pairedItem records
    = List.map (fun i => backReference i) indices /\
    StronglySorted lt indices /\
    Forall (fun i => i < length inputItems) indices /\
    Forall2 Emitted records indices.
Proof. apply runForEachItem_records. Qed.


(** C8.  An item for which the code evaluates to [null] gets no record in
    the output, and the loop goes on to the next index after it; when the
    code evaluates to [null] for every item the output is empty. *)
Theorem runForEachItem_null :
  (forall index,
      index < length inputItems ->
      eachItemResult index = Return JNull ->
      (forall records record,
          Run.outcome (runForEachItem this taskId settings allData workflow console)
          = Return records ->
          record ∈ records ->
          INodeExecutionData.pairedItem record <> backReference index) /\
      (index ∈ Run.evaluated (runForEachItem this taskId settings allData workflow console) ->
       S index < length inputItems ->
       S index ∈ Run.evaluated
                  (runForEachItem this taskId settings allData workflow console))) /\
  ((forall index, index < length inputItems -> eachItemResult index = Return JNull) ->
   runForEachItem this taskId settings allData workflow console
   = {| Run.evaluated := seq 0 (length inputItems); Run.outcome := Return [] |}).
Proof.
  split.
  - intros index Hindex Hnull. apply tryBlock_null in Hnull. split.
    + intros records record Hrun Hin Href.
      destruct (runForEachItem_records records Hrun)
        as (indices & Hrefs & _ & _ & Hemitted).
      apply list_elem_of_lookup in Hin as [position Hat].
      destruct (Forall2_lookup_l _ _ _ _ _ Hemitted Hat) as (i & Hi & Hrecord).
      assert (List.map INodeExecutionData.pairedItem records !! position
              = Some (INodeExecutionData.pairedItem record)) as Hleft.
      { change (List.map ?f ?l) with (f <$> l). now rewrite list_lookup_fmap, Hat. }
      rewrite Hrefs in Hleft.
      change (List.map ?f ?l) with (f <$> l) in Hleft.
      rewrite list_lookup_fmap, Hi, Href in Hleft. simpl in Hleft.
      injection Hleft as <-.
      destruct Hrecord as [Hpushed | (e & error & Hthrows & _)]; congruence.
    + destruct runForEachItem_cases
        as [[_ ->] | (first & e & Hlt & Hfirst & _ & _ & ->)]; cbn [Run.evaluated].
      * rewrite !elem_of_seq. lia.
      * rewrite !elem_of_seq. intros ? ?.
        assert (index <> first) by congruence. lia.
  - intros Hnull. unfold runForEachItem. rewrite loop_completes.
    + f_equal. f_equal. simpl.
      assert (forall l, Forall (fun i => i < length inputItems) l -> omap output l = [])
        as Hnone.
      { induction l as [|i l IH]; [reflexivity|]. intros Hall.
        apply Forall_cons in Hall as [Hi Hall]. simpl.
        unfold iterationOutput at 1. rewrite (tryBlock_null i) by now apply Hnull.
        now apply IH. }
      apply Hnone. apply Forall_forall. intros i. rewrite elem_of_seq. lia.
    + intros k Hk. apply (stopsAt_returns k None). apply tryBlock_null, Hnull. lia.
Qed.

End Engine.

(** C7 at the code [return null;] on three input items. *)
Lemma runForAllItems_null_example :
  runForAllItems (H := Example.host) Example.runner "task-1"
    (Example.settings Example.returnNull "runOnceForAllItems" false)
    Example.allData Example.workflow Example.console
  = Return [].
Proof.
  apply (runForAllItems_null (H := Example.host)).
  vm_compute. reflexivity.
Defined.

(** C6.  At the code [throw 1n;] with [continueOnFail] set, the all-items
    run does not return the one record with the normalised message: the
    normaliser, called unguarded in the [catch] block, throws in
    [JSON.stringify], and the run rejects with that. *)
Theorem runForAllItems_throws_bigint :
  JSExecSettings.continueOnFail
    (Example.settings Example.throwBigInt "runOnceForAllItems" true) = true /\
  runInNewContext (Host := Example.host) (allItemsWrapper Example.throwBigInt)
    (allItemsContext (H := Example.host) Example.runner "task-1"
       Example.allData Example.workflow Example.console)
  = Throw (JBigInt 1) /\
  toExecutionErrorIfNeeded (JBigInt 1)
  = Throw (StringifyFailed JSON.NotSerializable) /\
  runForAllItems (H := Example.host) Example.runner "task-1"
    (Example.settings Example.throwBigInt "runOnceForAllItems" true)
    Example.allData Example.workflow Example.console
  = Throw (NormaliserThrew (StringifyFailed JSON.NotSerializable)) /\
  forall records,
    runForAllItems (H := Example.host) Example.runner "task-1"
      (Example.settings Example.throwBigInt "runOnceForAllItems" true)
      Example.allData Example.workflow Example.console
    <> Return records.
Proof.
  split; [reflexivity|]. split; [vm_compute; reflexivity|].
  split; [reflexivity|].
  assert (runForAllItems (H := Example.host) Example.runner "task-1"
            (Example.settings Example.throwBigInt "runOnceForAllItems" true)
            Example.allData Example.workflow Example.console
          = Throw (NormaliserThrew (StringifyFailed JSON.NotSerializable))) as ->
      by (vm_compute; reflexivity).
  split; [reflexivity|]. intros records. discriminate.
Qed.

(** The same run at a thrown string: one record with the normalised
    message. *)
Example runForAllItems_oops :
  runForAllItems (H := Example.host) Example.runner "task-1"
    (Example.settings Example.throwString "runOnceForAllItems" true)
    Example.allData Example.workflow Example.console
  = Return [ {| INodeExecutionData.json :=
                  JObject [("error", JString (JSON.quote "oops"))];
                INodeExecutionData.binary := None;
                INodeExecutionData.pairedItem := None |} ].
Proof. vm_compute. reflexivity. Qed.

(** At the code [throw undefined;] the normaliser has no message to give,
    and the run rejects as well. *)
Example runForAllItems_undefined :
  runForAllItems (H := Example.host) Example.runner "task-1"
    (Example.settings Example.throwUndefined "runOnceForAllItems" true)
    Example.allData Example.workflow Example.console
  = Throw (NormaliserThrew MessageMissing).
Proof. vm_compute. reflexivity. Qed.

(** C5 at the code that throws at index 1, under [continueOnFail], on
    three input items: the back references are 0, 1, 2. *)
Lemma runForEachItem_pairedItem_example :
  exists indices : list nat,
    List.map INodeExecutionData.pairedItem
      [ {| INodeExecutionData.json := JObject [("ok", JBool true)];
           INodeExecutionData.binary := None;
           INodeExecutionData.pairedItem := Some {| INodeExecutionData.item := 0 |} |};
        {| INodeExecutionData.json := JObject [("error", JString "boom")];
           INodeExecutionData.binary := None;
           INodeExecutionData.pairedItem := Some {| INodeExecutionData.item := 1 |} |};
        {| INodeExecutionData.json := JObject [("ok", JBool true)];
           INodeExecutionData.binary := None;
           INodeExecutionData.pairedItem := Some {| INodeExecutionData.item := 2 |} |} ]
    = List.map (fun i => Some {| INodeExecutionData.item := i |}) indices /\
    StronglySorted lt indices /\
    Forall (fun i => i < 3) indices /\
    Forall2
      (EmittedFor (H := Example.host) Example.runner "task-1"
         (Example.settings Example.throwAtOne "runOnceForEachItem" true)
         Example.allData Example.workflow Example.console)
      [ {| INodeExecutionData.json := JObject [("ok", JBool true)];
           INodeExecutionData.binary := None;
           INodeExecutionData.pairedItem := Some {| INodeExecutionData.item := 0 |} |};
        {| INodeExecutionData.json := JObject [("error", JString "boom")];
           INodeExecutionData.binary := None;
           INodeExecutionData.pairedItem := Some {| INodeExecutionData.item := 1 |} |};
        {| INodeExecutionData.json := JObject [("ok", JBool true)];
           INodeExecutionData.binary := None;
           INodeExecutionData.pairedItem := Some {| INodeExecutionData.item := 2 |} |} ]
      indices.
Proof.
  apply (runForEachItem_pairedItem (H := Example.host) Example.runner "task-1"
           (Example.settings Example.throwAtOne "runOnceForEachItem" true)
           Example.allData Example.workflow Example.console).
  vm_compute. reflexivity.
Defined.


(** What the run of the example above is. *)
Example runForEachItem_boom :
  runForEachItem (H := Example.host) Example.runner "task-1"
    (Example.settings Example.throwAtOne "runOnceForEachItem" false)
    Example.allData Example.workflow Example.console
  = {| Run.evaluated := [0; 1];
       Run.outcome :=
         Throw (Normalized
                  {| NormalizedError.class := NormalizedError.ExecutionError;
                     NormalizedError.message := "boom";
                     NormalizedError.stack := None |}) |}.
Proof. vm_compute. reflexivity. Qed.

(** C8 at the code [return null;] on three input items: the output is
    empty. *)
Lemma runForEachItem_null_example :
  runForEachItem (H := Example.host) Example.runner "task-1"
    (Example.settings Example.returnNull "runOnceForEachItem" false)
    Example.allData Example.workflow Example.console
  = {| Run.evaluated := [0; 1; 2]; Run.outcome := Return [] |}.
Proof.
  apply (proj2 (runForEachItem_null (H := Example.host) Example.runner "task-1"
                  (Example.settings Example.returnNull "runOnceForEachItem" false)
                  Example.allData Example.workflow Example.console)).
  intros index Hindex. reflexivity.
Defined.

(** The index-aware code of the specification on three items. *)
Example runForEachItem_returnIndex :
  runForEachItem (H := Example.host) Example.runner "task-1"
    (Example.settings Example.returnIndex "runOnceForEachItem" false)
    Example.allData Example.workflow Example.console
  = {| Run.evaluated := [0; 1; 2];
       Run.outcome :=
         Return
           [ {| INodeExecutionData.json := JObject [("v", JNumber #0)];
                INodeExecutionData.binary := None;
                INodeExecutionData.pairedItem := Some {| INodeExecutionData.item := 0 |} |};
             {| INodeExecutionData.json := JObject [("v", JNumber #1)];
                INodeExecutionData.binary := None;
                INodeExecutionData.pairedItem := Some {| INodeExecutionData.item := 1 |} |};
             {| INodeExecutionData.json := JObject [("v", JNumber #2)];
                INodeExecutionData.binary := None;
                INodeExecutionData.pairedItem := Some {| INodeExecutionData.item := 2 |} |} ] |}.
Proof. vm_compute. reflexivity. Qed.


(** ** Dispatch on the node mode *)

Section Dispatch.

Context `{Host}.
Variable this : JsTaskRunner.

Lemma executeTask_request_failed (task : Task) (reason : JsValue) :
  requestData (Task.taskId task) "all" = Throw reason ->
  executeTask this task = Throw (RequestFailed reason).
Proof. intros Hfailed. unfold executeTask. now rewrite Hfailed. Qed.

Lemma executeTask_without_settings (task : Task) (allData : AllCodeTaskData) :
  requestData (Task.taskId task) "all" = Return allData ->
  Task.settings task = None ->
  executeTask this task = Throw (AssertionFailed "JS Code not sent to runner").
Proof. intros Hdata Hnone. unfold executeTask. now rewrite Hdata, Hnone. Qed.

(** The two paths of [executeTask] once the data bundle and the settings
    are there. *)
Lemma executeTask_paths (task : Task) (settings : JSExecSettings)
    (allData : AllCodeTaskData) :
  requestData (Task.taskId task) "all" = Return allData ->
  Task.settings task = Some settings ->
  let workflow := {| Workflow.parameters := AllCodeTaskData.workflow allData;
                     Workflow.nodeTypes := nodeTypes this |} in
  let console := {| logTaskId := Task.taskId task |} in
  (JSExecSettings.nodeMode settings = "runOnceForAllItems" ->
   executeTask this task
   = taskResultOf allData
       (runForAllItems this (Task.taskId task) settings allData workflow console)) /\
  (JSExecSettings.nodeMode settings <> "runOnceForAllItems" ->
   executeTask this task
   = taskResultOf allData
       (Run.outcome
          (runForEachItem this (Task.taskId task) settings allData workflow console))).
Proof.
  intros Hdata Hsettings workflow console. unfold executeTask.
  rewrite Hdata, Hsettings. fold workflow console. split.
  - intros ->. rewrite String.eqb_refl. unfold taskResultOf.
    now destruct (runForAllItems _ _ _ _ _ _).
  - intros Hother. apply String.eqb_neq in Hother. rewrite Hother.
    unfold taskResultOf. now destruct (Run.outcome _).
Qed.

(** C10.  [executeTask] takes the all-items path when the node mode is
    exactly [runOnceForAllItems]; under every other mode, recognised or
    not, it takes the per-item path. *)
Theorem executeTask_dispatch (task : Task) (settings : JSExecSettings)
    (allData : AllCodeTaskData) :
  requestData (Task.taskId task) "all" = Return allData ->
  Task.settings task = Some settings ->
  let workflow := {| Workflow.parameters := AllCodeTaskData.workflow allData;
                     Workflow.nodeTypes := nodeTypes this |} in
  let console := {| logTaskId := Task.taskId task |} in
  (JSExecSettings.nodeMode settings = "runOnceForAllItems" ->
   executeTask this task
   = taskResultOf allData
       (runForAllItems this (Task.taskId task) settings allData workflow console)) /\
  (JSExecSettings.nodeMode settings <> "runOnceForAllItems" ->
   executeTask this task
   = taskResultOf allData
       (Run.outcome
          (runForEachItem this (Task.taskId task) settings allData workflow console))).
Proof. apply executeTask_paths. Qed.

(** With [continueOnFail] unset, a failing item in per-item mode fails the
    task: the caller gets the error and no record. *)
Lemma executeTask_item_failure (task : Task) (settings : JSExecSettings)
    (allData : AllCodeTaskData) (index : nat) (e : JsValue) :
  requestData (Task.taskId task) "all" = Return allData ->
  Task.settings task = Some settings ->
  JSExecSettings.nodeMode settings <> "runOnceForAllItems" ->
  JSExecSettings.continueOnFail settings = false ->
  index < length (AllCodeTaskData.connectionInputData allData) ->
  eachItemTryBlock this (Task.taskId task) settings allData
    {| Workflow.parameters := AllCodeTaskData.workflow allData;
       Workflow.nodeTypes := nodeTypes this |}
    {| logTaskId := Task.taskId task |} index = Throw e ->
  exists failure, executeTask this task = Throw (ExecutionFailed failure).
Proof.
  intros Hdata Hsettings Hmode Hunset Hindex Hthrows.
  destruct (executeTask_paths task settings allData Hdata Hsettings) as [_ ->];
    [|assumption].
  destruct (runForEachItem_cases this (Task.taskId task) settings allData
              {| Workflow.parameters := AllCodeTaskData.workflow allData;
                 Workflow.nodeTypes := nodeTypes this |}
              {| logTaskId := Task.taskId task |})
    as [[Hnone _] | (first & error & _ & _ & _ & _ & ->)].
  - specialize (Hnone index Hindex).
    now rewrite (stopsAt_unset _ _ _ _ _ _ index e Hunset Hthrows) in Hnone.
  - simpl. eauto.
Qed.

End Dispatch.

(** C10 at an unrecognised mode: the task is run per item. *)
Lemma executeTask_dispatch_example :
  executeTask (H := Example.host) Example.runner
    {| Task.taskId := "task-1";
       Task.settings := Some (Example.settings Example.returnIndex "bogus" false) |}
  = taskResultOf Example.allData
      (Run.outcome
         (runForEachItem (H := Example.host) Example.runner "task-1"
            (Example.settings Example.returnIndex "bogus" false)
            Example.allData
            {| Workflow.parameters := AllCodeTaskData.workflow Example.allData;
               Workflow.nodeTypes := nodeTypes Example.runner |}
            {| logTaskId := "task-1" |})).
Proof.
  apply (proj2 (executeTask_dispatch (H := Example.host) Example.runner
                  {| Task.taskId := "task-1";
                     Task.settings :=
                       Some (Example.settings Example.returnIndex "bogus" false) |}
                  (Example.settings Example.returnIndex "bogus" false)
                  Example.allData eq_refl eq_refl)).
  discriminate.
Defined.

(** Under the unrecognised mode the code is run three times, once per
    item; under [runOnceForAllItems] the same code is run once, and its
    result, not being a sequence, is rejected. *)
Example executeTask_bogus_mode :
  (exists result,
      executeTask (H := Example.host) Example.runner
        {| Task.taskId := "task-1";
           Task.settings := Some (Example.settings Example.returnIndex "bogus" false) |}
      = Return result /\ length (TaskResultData.result result) = 3) /\
  exists error,
    executeTask (H := Example.host) Example.runner
      {| Task.taskId := "task-1";
         Task.settings :=
           Some (Example.settings Example.returnIndex "runOnceForAllItems" false) |}
    = Throw (ExecutionFailed error).
Proof. split; eexists; vm_compute; [split|]; reflexivity. Qed.

(** ** The module allow lists *)

Section Strings.

Import JsString.

Lemma append_cons (c : ascii) (s t : string) : String c s +:+ t = String c (s +:+ t).
Proof. reflexivity. Qed.

Lemma append_empty_l (s : string) : "" +:+ s = s.
Proof. reflexivity. Qed.

Lemma append_empty_r (s : string) : s +:+ "" = s.
Proof.
  induction s as [|c s IH]; [reflexivity|]. now rewrite append_cons, IH.
Qed.

Lemma append_associative (s t u : string) : (s +:+ t) +:+ u = s +:+ t +:+ u.
Proof.
  induction s as [|c s IH]; [reflexivity|]. now rewrite !append_cons, IH.
Qed.

Lemma allWhiteSpace_append (s t : string) :
  allWhiteSpace (s +:+ t) = allWhiteSpace s && allWhiteSpace t.
Proof.
  induction s as [|c s IH]; [reflexivity|].
  rewrite append_cons. simpl. now rewrite IH, andb_assoc.
Qed.

Lemma split_nonempty (sep : ascii) (s : string) : split sep s <> [].
Proof.
  destruct s as [|c s]; simpl; [discriminate|].
  destruct (Ascii.eqb c sep); [discriminate|].
  destruct (split sep s); discriminate.
Qed.

Lemma join_cons (sep part : string) (parts : list string) :
  parts <> [] -> join sep (part :: parts) = part +:+ sep +:+ join sep parts.
Proof. destruct parts; [contradiction | reflexivity]. Qed.

(** The pieces of a split, joined by the separator, are the string. *)
Lemma join_split (sep : ascii) (s : string) :
  join (String sep "") (split sep s) = s.
Proof.
  induction s as [|c s IH]; simpl; [reflexivity|].
  pose proof (split_nonempty sep s) as Hnonempty.
  destruct (Ascii.eqb_spec c sep) as [->|Hother].
  - rewrite join_cons by assumption.
    now rewrite append_empty_l, append_cons, append_empty_l, IH.
  - destruct (split sep s) as [|part parts]; [contradiction|].
    destruct parts as [|next parts].
    + simpl in *. now rewrite IH.
    + rewrite join_cons by discriminate. rewrite join_cons in IH by discriminate.
      now rewrite append_cons, IH.
Qed.

(** No piece of a split holds the separator. *)
Lemma split_contains (sep : ascii) (s : string) :
  Forall (fun part => contains sep part = false) (split sep s).
Proof.
  induction s as [|c s IH]; simpl.
  - now repeat constructor.
  - destruct (Ascii.eqb c sep) eqn:Hsep.
    + now constructor.
    + destruct (split sep s) as [|part parts].
      { constructor; [|constructor]. simpl. now rewrite Hsep. }
      apply Forall_cons in IH as [Hpart Hparts].
      constructor; [|assumption]. simpl. now rewrite Hsep, Hpart.
Qed.

Lemma trimStart_prefix (s : string) :
  exists before, s = before +:+ trimStart s /\ allWhiteSpace before = true.
Proof.
  induction s as [|c s (before & Hs & Hbefore)]; simpl.
  - now exists "".
  - destruct (isWhiteSpace c) eqn:Hc.
    + exists (String c before). split.
      * rewrite append_cons. now rewrite <- Hs.
      * simpl. now rewrite Hc.
    + now exists "".
Qed.

Lemma trimStart_firstChar (s : string) (c : ascii) :
  firstChar (trimStart s) = Some c -> isWhiteSpace c = false.
Proof.
  induction s as [|d s IH]; simpl; [discriminate|].
  destruct (isWhiteSpace d) eqn:Hd; [assumption|].
  simpl. now intros [= <-].
Qed.

Lemma trimEnd_suffix (s : string) :
  exists after, s = trimEnd s +:+ after /\ allWhiteSpace after = true.
Proof.
  induction s as [|c s (after & Hs & Hafter)]; simpl.
  - now exists "".
  - destruct (trimEnd s) as [|d kept] eqn:Hkept.
    + rewrite append_empty_l in Hs. subst after. destruct (isWhiteSpace c) eqn:Hc.
      * exists (String c s). split; [reflexivity|]. simpl. now rewrite Hc.
      * now exists s.
    + exists after. split; [|assumption]. rewrite append_cons. now rewrite <- Hs.
Qed.

Lemma trimEnd_lastChar (s : string) (c : ascii) :
  lastChar (trimEnd s) = Some c -> isWhiteSpace c = false.
Proof.
  induction s as [|d s IH]; simpl; [discriminate|].
  destruct (trimEnd s) as [|d' kept] eqn:Hkept.
  - destruct (isWhiteSpace d) eqn:Hd; simpl; [discriminate|]. now intros [= <-].
  - exact IH.
Qed.

Lemma trimEnd_firstChar (s : string) (c : ascii) :
  firstChar (trimEnd s) = Some c -> firstChar s = Some c.
Proof.
  destruct s as [|d s]; simpl; [discriminate|].
  destruct (trimEnd s); [|now simpl].
  destruct (isWhiteSpace d); [discriminate | now simpl].
Qed.

(** [trim] trims. *)
Lemma trim_Trimmed (entry : string) : Trimmed entry (trim entry).
Proof.
  unfold Trimmed, trim.
  destruct (trimStart_prefix entry) as (before & Hentry & Hbefore).
  destruct (trimEnd_suffix (trimStart entry)) as (after & Hkept & Hafter).
  split; [|split].
  - exists before, after. split; [|now split].
    now rewrite <- Hkept.
  - intros c Hc. apply trimEnd_firstChar in Hc. now apply trimStart_firstChar in Hc.
  - apply trimEnd_lastChar.
Qed.

Lemma split_SplitOnCommas (moduleList : string) :
  SplitOnCommas moduleList (split "," moduleList).
Proof.
  split; [apply split_nonempty|].
  split; [apply join_split | apply split_contains].
Qed.

(** A string is split on commas in one way only. *)

Lemma contains_append_sep (sep : ascii) (s t : string) :
  contains sep (s +:+ String sep t) = true.
Proof.
  induction s as [|c s IH].
  - simpl. now rewrite Ascii.eqb_refl.
  - rewrite append_cons. simpl. rewrite IH. apply orb_true_r.
Qed.

Lemma append_sep_injective (sep : ascii) (s s' t t' : string) :
  contains sep s = false -> contains sep s' = false ->
  s +:+ String sep t = s' +:+ String sep t' ->
  s = s' /\ t = t'.
Proof.
  revert s'. induction s as [|c s IH]; intros [|c' s']; simpl;
    rewrite ?append_cons, ?append_empty_l.
  - intros _ _ [= ->]. now split.
  - intros _ Hfree [= <- _]. now rewrite Ascii.eqb_refl in Hfree.
  - intros Hfree _ [= -> _]. now rewrite Ascii.eqb_refl in Hfree.
  - intros [_ Hs]%orb_false_elim [_ Hs']%orb_false_elim [= <- Heq].
    destruct (IH s' Hs Hs' Heq) as [-> ->]. now split.
Qed.

Lemma join_injective (sep : ascii) (parts parts' : list string) :
  parts <> [] -> parts' <> [] ->
  Forall (fun part => contains sep part = false) parts ->
  Forall (fun part => contains sep part = false) parts' ->
  join (String sep "") parts = join (String sep "") parts' ->
  parts = parts'.
Proof.
  revert parts'.
  induction parts as [|part parts IH]; intros [|part' parts'] Hne Hne' Hfree Hfree' Heq;
    try contradiction.
  apply Forall_cons in Hfree as [Hpart Hfree].
  apply Forall_cons in Hfree' as [Hpart' Hfree'].
  destruct parts as [|next parts], parts' as [|next' parts'].
  - simpl in Heq. now subst.
  - rewrite (join_cons _ part' (next' :: parts')) in Heq by discriminate.
    rewrite append_cons, append_empty_l in Heq. simpl in Heq.
    now rewrite Heq, contains_append_sep in Hpart.
  - rewrite (join_cons _ part (next :: parts)) in Heq by discriminate.
    rewrite append_cons, append_empty_l in Heq. simpl in Heq.
    now rewrite <- Heq, contains_append_sep in Hpart'.
  - rewrite (join_cons _ part (next :: parts)) in Heq by discriminate.
    rewrite (join_cons _ part' (next' :: parts')) in Heq by discriminate.
    rewrite !append_cons, !append_empty_l in Heq.
    apply append_sep_injective in Heq as [-> Heq]; [|assumption..].
    f_equal. apply IH; (discriminate || assumption).
Qed.

Lemma SplitOnCommas_unique (moduleList : string) (parts : list string) :
  SplitOnCommas moduleList parts -> parts = split "," moduleList.
Proof.
  intros (Hne & Hjoin & Hfree).
  destruct (split_SplitOnCommas moduleList) as (Hne' & Hjoin' & Hfree').
  apply (join_injective ","); try assumption. congruence.
Qed.

(** An entry is trimmed in one way only. *)

Lemma trimStart_whiteSpace (before s : string) :
  allWhiteSpace before = true -> trimStart (before +:+ s) = trimStart s.
Proof.
  induction before as [|c before IH]; [reflexivity|].
  rewrite append_cons. simpl. intros [-> Hbefore]%andb_true_iff. now apply IH.
Qed.

Lemma trimEnd_all_whiteSpace (after : string) :
  allWhiteSpace after = true -> trimEnd after = "".
Proof.
  induction after as [|c after IH]; [reflexivity|].
  simpl. intros [-> Hafter]%andb_true_iff. now rewrite IH.
Qed.

Lemma trimEnd_whiteSpace (s after : string) :
  allWhiteSpace after = true -> trimEnd (s +:+ after) = trimEnd s.
Proof.
  intros Hafter. induction s as [|c s IH].
  - rewrite append_empty_l. now apply trimEnd_all_whiteSpace.
  - rewrite append_cons. simpl. now rewrite IH.
Qed.

Lemma trimEnd_kept (s : string) :
  (forall c, lastChar s = Some c -> isWhiteSpace c = false) -> trimEnd s = s.
Proof.
  induction s as [|c s IH]; [reflexivity|].
  destruct s as [|d s].
  - intros Hlast. simpl. now rewrite (Hlast c).
  - intros Hlast. change (trimEnd (String c (String d s)))
      with (match trimEnd (String d s) with
            | "" => if isWhiteSpace c then "" else String c ""
            | kept => String c kept
            end).
    now rewrite IH.
Qed.

Lemma Trimmed_unique (entry trimmed : string) :
  Trimmed entry trimmed -> trimmed = trim entry.
Proof.
  intros ((before & after & -> & Hbefore & Hafter) & Hfirst & Hlast).
  unfold trim. rewrite trimStart_whiteSpace by assumption.
  destruct trimmed as [|c kept].
  - rewrite append_empty_l.
    replace (trimStart after) with "".
    + reflexivity.
    + rewrite <- (append_empty_r after) at 1.
      now rewrite trimStart_whiteSpace.
  - rewrite append_cons. simpl. rewrite (Hfirst c) by reflexivity.
    rewrite <- append_cons, trimEnd_whiteSpace by assumption.
    symmetry. now apply trimEnd_kept.
Qed.

Lemma Forall2_Trimmed (parts entries : list string) :
  Forall2 Trimmed parts entries <-> entries = List.map trim parts.
Proof.
  split.
  - induction 1 as [|part entry parts entries Hentry _ IH]; [reflexivity|].
    simpl. now rewrite <- (Trimmed_unique _ _ Hentry), IH.
  - intros ->. induction parts as [|part parts IH]; constructor.
    + apply trim_Trimmed.
    + exact IH.
Qed.

End Strings.

(** C9.  An allow list permits every module exactly when its configuration
    string is the wildcard; for any other string it is the set of the
    entries obtained by splitting the string on commas and trimming each
    piece of white space.  The built-in and the external list are each
    parsed from their own string. *)
Theorem parseModuleAllowList_spec (moduleList : string) :
  (parseModuleAllowList moduleList = None <-> moduleList = "*") /\
  (exists parts entries,
      SplitOnCommas moduleList parts /\ Forall2 Trimmed parts entries) /\
  (forall parts entries,
      moduleList <> "*" ->
      SplitOnCommas moduleList parts ->
      Forall2 Trimmed parts entries ->
      parseModuleAllowList moduleList = Some (list_to_set entries)) /\
  (forall other : option string,
      RequireResolverOpts.allowedBuiltInModules
        (requireResolverOpts
           {| JsRunnerConfig.allowedBuiltInModules := Some moduleList;
              JsRunnerConfig.allowedExternalModules := other |})
      = parseModuleAllowList moduleList /\
      RequireResolverOpts.allowedExternalModules
        (requireResolverOpts
           {| JsRunnerConfig.allowedBuiltInModules := other;
              JsRunnerConfig.allowedExternalModules := Some moduleList |})
      = parseModuleAllowList moduleList).
Proof.
  unfold parseModuleAllowList.
  destruct (String.eqb_spec moduleList "*") as [->|Hother].
  - split; [now split|]. split; [|split].
    + exists (JsString.split "," "*"), (List.map JsString.trim (JsString.split "," "*")).
      split; [apply split_SplitOnCommas | now apply Forall2_Trimmed].
    + intros parts entries Hne. contradiction.
    + intros other. split; reflexivity.
  - split; [split; [discriminate | contradiction]|]. split; [|split].
    + exists (JsString.split "," moduleList),
        (List.map JsString.trim (JsString.split "," moduleList)).
      split; [apply split_SplitOnCommas | now apply Forall2_Trimmed].
    + intros parts entries _ Hparts Hentries.
      apply SplitOnCommas_unique in Hparts as ->.
      now apply Forall2_Trimmed in Hentries as ->.
    + intros other. unfold requireResolverOpts, parseModuleAllowList. simpl.
      apply String.eqb_neq in Hother. rewrite Hother. now split.
Qed.

(** C9 at the string [crypto, path ,fs]. *)
Lemma parseModuleAllowList_example :
  parseModuleAllowList "crypto, path ,fs"
  = Some (list_to_set ["crypto"; "path"; "fs"]).
Proof.
  apply (proj1 (proj2 (proj2 (parseModuleAllowList_spec "crypto, path ,fs")))
           ["crypto"; " path "; "fs"] ["crypto"; "path"; "fs"]).
  - discriminate.
  - split; [discriminate|]. split; [reflexivity|]. repeat constructor.
  - apply Forall2_Trimmed. reflexivity.
Defined.

(** A missing configuration string stands for the empty string, whose
    list is the set with the empty identifier as its only member. *)
Example parseModuleAllowList_empty :
  RequireResolverOpts.allowedExternalModules
    (requireResolverOpts
       {| JsRunnerConfig.allowedBuiltInModules := Some "*";
          JsRunnerConfig.allowedExternalModules := None |})
  = Some {[ "" ]} /\
  RequireResolverOpts.allowedBuiltInModules
    (requireResolverOpts
       {| JsRunnerConfig.allowedBuiltInModules := Some "*";
          JsRunnerConfig.allowedExternalModules := None |})
  = None.
Proof. split; vm_compute; reflexivity. Qed.

(** * Further properties of the runner *)


(** ** Per-item runs *)

Section EachItemRuns.

Context `{Host}.
Variables (this : JsTaskRunner) (taskId : string) (settings : JSExecSettings)
          (allData : AllCodeTaskData) (workflow : Workflow) (console : CustomConsole).

Local Abbreviation inputItems := (AllCodeTaskData.connectionInputData allData).
Local Abbreviation eachItemResult index :=
  (runInNewContext (eachItemWrapper (JSExecSettings.code settings))
     (eachItemContext this taskId allData workflow console index)).
Local Abbreviation tryBlock := (eachItemTryBlock this taskId settings allData workflow console).
Local Abbreviation output := (iterationOutput this taskId settings allData workflow console).
Local Abbreviation backReference index := (Some {| INodeExecutionData.item := index |}).
Local Abbreviation perItemRun := (runForEachItem this taskId settings allData workflow console).

Lemma omap_length_le {A B : Type} (f : A -> option B) (l : list A) :
  length (omap f l) <= length l.
Proof.
  induction l as [|x l IH]; [reflexivity|].
  change (omap f (x :: l))
    with (match f x with Some y => y :: omap f l | None => omap f l end).
  destruct (f x); simpl; lia.
Qed.

(** The records of the iterations from [index] on when each of them gives
    one: they are as many as the iterations, in their order. *)
Lemma omap_output_all (remaining index : nat) :
  (forall i, index <= i < index + remaining -> is_Some (output i)) ->
  length (omap output (seq index remaining)) = remaining /\
  forall k, k < remaining ->
            omap output (seq index remaining) !! k = output (index + k).
Proof.
  revert index. induction remaining as [|remaining IH]; intros index Hall.
  - split; [reflexivity|]. intros k ?. lia.
  - change (omap output (seq index (S remaining)))
      with (match output index with
            | Some record => record :: omap output (seq (S index) remaining)
            | None => omap output (seq (S index) remaining)
            end).
    destruct (Hall index) as [record Hrecord]; [lia|]. rewrite Hrecord.
    destruct (IH (S index)) as [Hlength Hlookup].
    { intros i ?. apply Hall. lia. }
    split; [simpl; now rewrite Hlength|].
    intros [|k] Hk; simpl.
    + now rewrite Nat.add_0_r.
    + rewrite Hlookup by lia. f_equal. lia.
Qed.

(** A record pushed for a validated result: what it is made of. *)
Lemma tryBlock_record (index : nat) (record : INodeExecutionData) :
  tryBlock index = Return (Some record) ->
  exists result validated,
    eachItemResult index = Return result /\
    result <> JNull /\
    validateRunForEachItemOutput result index = Return (Some validated) /\
    record = {| INodeExecutionData.json := INodeExecutionData.json validated;
                INodeExecutionData.binary := INodeExecutionData.binary validated;
                INodeExecutionData.pairedItem := backReference index |}.
Proof.
  unfold eachItemTryBlock.
  destruct (eachItemResult index) as [result|e]; simpl; [|discriminate].
  intros Hpushed. exists result.
  assert (result <> JNull) as Hnotnull.
  { intros ->. discriminate. }
  assert (match validateRunForEachItemOutput result index with
          | Return (Some validated) =>
              Return (Some
                {| INodeExecutionData.json := INodeExecutionData.json validated;
                   INodeExecutionData.binary := INodeExecutionData.binary validated;
                   INodeExecutionData.pairedItem := backReference index |})
          | Return None => Return None
          | Throw e => Throw e
          end = Return (Some record)) as Hvalidated.
  { rewrite <- Hpushed.
    destruct result; try contradiction;
      destruct (validateRunForEachItemOutput _ index) as [[validated|]|e];
      simpl; try reflexivity;
      now destruct (INodeExecutionData.binary validated). }
  destruct (validateRunForEachItemOutput result index) as [[validated|]|e];
    try discriminate.
  exists validated. injection Hvalidated as <-. now repeat split.
Qed.

(** X1.  Under [continueOnFail], when every iteration either completes
    its [try] block or throws a value that the normaliser turns into an
    error, the per-item run evaluates every item index once, in order, and
    returns at most one record per input item. *)
Theorem runForEachItem_continueOnFail_returns :
  JSExecSettings.continueOnFail settings = true ->
  (forall i, i < length inputItems ->
     (exists pushed,
         eachItemTryBlock this taskId settings allData workflow console i
         = Return pushed) \/
     (exists e error,
         eachItemTryBlock this taskId settings allData workflow console i = Throw e /\
         toExecutionErrorIfNeeded e = Return error)) ->
  exists records,
    runForEachItem this taskId settings allData workflow console
    = {| Run.evaluated := seq 0 (length inputItems);
         Run.outcome := Return records |} /\
    length records <= length inputItems.
Proof.
  intros Hflag Hsettles. exists (omap output (seq 0 (length inputItems))). split.
  - unfold runForEachItem. rewrite loop_completes; [reflexivity|].
    intros k Hk. unfold stopsAt.
    destruct (Hsettles k) as [[pushed ->] | (e & error & -> & ->)];
      [lia | reflexivity | now rewrite Hflag].
  - etransitivity; [apply omap_length_le|]. now rewrite length_seq.
Qed.

(** X2.  Under [continueOnFail] an item whose iteration fails is
    represented in the output of a run that returns by its error record,
    the record of the normalised error, and by no other record. *)
Theorem runForEachItem_error_record (index : nat) (e : JsValue)
    (records : list INodeExecutionData) :
  JSExecSettings.continueOnFail settings = true ->
  index < length inputItems ->
  eachItemTryBlock this taskId settings allData workflow console index = Throw e ->
  Run.outcome (runForEachItem this taskId settings allData workflow console)
  = Return records ->
  exists error,
    toExecutionErrorIfNeeded e = Return error /\
    errorRecord error index ∈ records /\
    forall record,
      record ∈ records ->
      INodeExecutionData.pairedItem record = backReference index ->
      record = errorRecord error index.
Proof.
  intros Hflag Hindex Hthrows.
  destruct (runForEachItem_cases this taskId settings allData workflow console)
    as [[Hgoes ->] | (first & e' & _ & _ & _ & _ & ->)]; simpl; [|discriminate].
  intros [= <-].
  destruct (stopsAt_goes_on this taskId settings allData workflow console
              index e (Hgoes index Hindex) Hthrows) as (_ & error & Herror).
  exists error. split; [assumption|].
  assert (output index = Some (errorRecord error index)) as Houtput.
  { unfold iterationOutput. now rewrite Hthrows, Herror. }
  split.
  - apply list_elem_of_omap. exists index. split; [|assumption].
    apply elem_of_seq. lia.
  - intros record (i & Hi & Houtputs)%list_elem_of_omap Href.
    apply elem_of_seq in Hi.
    destruct (output_emitted this taskId settings allData workflow console i record)
      as [Hback _]; [apply Hgoes; lia | assumption |].
    rewrite Hback in Href. injection Href as ->. congruence.
Qed.

(** X3.  A record emitted for a validated result takes its [json] and
    [binary] from the validated result and its back reference from the
    loop index; nothing else of the validated result is kept. *)
Theorem eachItemTryBlock_record (index : nat) (record : INodeExecutionData) :
  eachItemTryBlock this taskId settings allData workflow console index
  = Return (Some record) ->
  exists result validated,
    eachItemResult index = Return result /\
    result <> JNull /\
    validateRunForEachItemOutput result index = Return (Some validated) /\
    INodeExecutionData.json record = INodeExecutionData.json validated /\
    INodeExecutionData.binary record = INodeExecutionData.binary validated /\
    INodeExecutionData.pairedItem record = backReference index.
Proof.
  intros (result & validated & Hresult & Hnotnull & Hvalidated & ->)%tryBlock_record.
  exists result, validated. now repeat split.
Qed.

(** X4.  When every iteration emits a validated record, the output has
    one record per input item, the record at position [i] being the one of
    item [i]. *)
Theorem runForEachItem_one_record_per_item :
  (forall i, i < length inputItems ->
     exists record,
       eachItemTryBlock this taskId settings allData workflow console i
       = Return (Some record)) ->
  exists records,
    runForEachItem this taskId settings allData workflow console
    = {| Run.evaluated := seq 0 (length inputItems);
         Run.outcome := Return records |} /\
    length records = length inputItems /\
    forall i, i < length inputItems ->
      exists record,
        records !! i = Some record /\
        eachItemTryBlock this taskId settings allData workflow console i
        = Return (Some record) /\
        INodeExecutionData.pairedItem record = backReference i.
Proof.
  intros Hall. exists (omap output (seq 0 (length inputItems))).
  assert (forall i, i < length inputItems -> is_Some (output i)) as Hsome.
  { intros i [record Hrecord]%Hall. exists record.
    unfold iterationOutput. now rewrite Hrecord. }
  destruct (omap_output_all (length inputItems) 0) as [Hlength Hlookup].
  { intros i ?. apply Hsome. lia. }
  split; [|split; [assumption|]].
  - unfold runForEachItem. rewrite loop_completes; [reflexivity|].
    intros k Hk. destruct (Hall k) as [record Hrecord]; [lia|].
    now apply (stopsAt_returns this taskId settings allData workflow console
                 k (Some record)).
  - intros i Hi. destruct (Hall i Hi) as [record Hrecord]. exists record.
    split; [|split; [assumption | now apply (tryBlock_pairedItem this taskId settings
                                               allData workflow console)]].
    rewrite Hlookup by assumption. simpl. unfold iterationOutput. now rewrite Hrecord.
Qed.

(** X5.  Items are evaluated strictly in index order, each at most once:
    the evaluated indices are always an initial segment of the input
    indices, and the whole of them when the run returns. *)
Theorem runForEachItem_sequential :
  exists count,
    count <= length inputItems /\
    Run.evaluated (runForEachItem this taskId settings allData workflow console)
    = seq 0 count /\
    forall records,
      Run.outcome (runForEachItem this taskId settings allData workflow console)
      = Return records ->
      count = length inputItems.
Proof.
  destruct (runForEachItem_cases this taskId settings allData workflow console)
    as [[_ ->] | (first & e & Hlt & _ & _ & _ & ->)].
  - exists (length inputItems). now repeat split.
  - exists (S first). split; [lia|]. split; [reflexivity|]. discriminate.
Qed.

(** X25.  An iteration that throws a value on which the normaliser itself
    throws ends the per-item run, [continueOnFail] set or not: the run
    stops at that index or before it and returns no record; when it stops
    at that index, it rejects with what the normaliser threw. *)
Theorem runForEachItem_normaliser_throws (index : nat) (e : JsValue)
    (failure : NormaliserFailure) :
  index < length inputItems ->
  eachItemTryBlock this taskId settings allData workflow console index = Throw e ->
  toExecutionErrorIfNeeded e = Throw failure ->
  exists first,
    first <= index /\
    Run.evaluated (runForEachItem this taskId settings allData workflow console)
    = seq 0 (S first) /\
    (forall records,
        Run.outcome (runForEachItem this taskId settings allData workflow console)
        <> Return records) /\
    (first = index ->
     Run.outcome (runForEachItem this taskId settings allData workflow console)
     = Throw (NormaliserThrew failure)).
Proof.
  intros Hindex Hthrows Hfails.
  assert (stopsAt this taskId settings allData workflow console index = true)
    as Hstops.
  { unfold stopsAt. now rewrite Hthrows, Hfails. }
  destruct (runForEachItem_cases this taskId settings allData workflow console)
    as [[Hnone _] | (first & error & Hlt & Hfirst & _ & Hbefore & ->)].
  - specialize (Hnone index Hindex). congruence.
  - exists first. split.
    { destruct (decide (first <= index)) as [|Hgt]; [assumption|].
      specialize (Hbefore index). rewrite Hstops in Hbefore.
      exfalso. assert (index < first) as Hlater by lia.
      specialize (Hbefore Hlater). discriminate. }
    split; [reflexivity|]. split; [intros records; discriminate|].
    intros ->. simpl. unfold rethrown.
    assert (error = e) as -> by congruence. now rewrite Hfails.
Qed.

End EachItemRuns.

(** X1 at the code that throws at index 1, under [continueOnFail]. *)
Lemma runForEachItem_continueOnFail_returns_example :
  exists records,
    runForEachItem (H := Example.host) Example.runner "task-1"
      (Example.settings Example.throwAtOne "runOnceForEachItem" true)
      Example.allData Example.workflow Example.console
    = {| Run.evaluated := seq 0 3; Run.outcome := Return records |} /\
    length records <= 3.
Proof.
  apply (runForEachItem_continueOnFail_returns (H := Example.host) Example.runner
           "task-1" (Example.settings Example.throwAtOne "runOnceForEachItem" true)
           Example.allData Example.workflow Example.console).
  - reflexivity.
  - intros i Hi. simpl in Hi.
    destruct i as [|[|[|i]]]; [| |
                               |lia].
    + left. eexists. vm_compute. reflexivity.
    + right. eexists. eexists. split; vm_compute; reflexivity.
    + left. eexists. vm_compute. reflexivity.
Defined.

(** X2 at the same run: item 1 is represented by the record of [boom]. *)
Lemma runForEachItem_error_record_example :
  exists error,
    toExecutionErrorIfNeeded (JObject [("message", JString "boom")]) = Return error /\
    errorRecord error 1
    ∈ [ {| INodeExecutionData.json := JObject [("ok", JBool true)];
           INodeExecutionData.binary := None;
           INodeExecutionData.pairedItem := Some {| INodeExecutionData.item := 0 |} |};
        {| INodeExecutionData.json := JObject [("error", JString "boom")];
           INodeExecutionData.binary := None;
           INodeExecutionData.pairedItem := Some {| INodeExecutionData.item := 1 |} |};
        {| INodeExecutionData.json := JObject [("ok", JBool true)];
           INodeExecutionData.binary := None;
           INodeExecutionData.pairedItem := Some {| INodeExecutionData.item := 2 |} |} ] /\
    forall record,
      record
      ∈ [ {| INodeExecutionData.json := JObject [("ok", JBool true)];
             INodeExecutionData.binary := None;
             INodeExecutionData.pairedItem := Some {| INodeExecutionData.item := 0 |} |};
          {| INodeExecutionData.json := JObject [("error", JString "boom")];
             INodeExecutionData.binary := None;
             INodeExecutionData.pairedItem := Some {| INodeExecutionData.item := 1 |} |};
          {| INodeExecutionData.json := JObject [("ok", JBool true)];
             INodeExecutionData.binary := None;
             INodeExecutionData.pairedItem := Some {| INodeExecutionData.item := 2 |} |} ] ->
      INodeExecutionData.pairedItem record = Some {| INodeExecutionData.item := 1 |} ->
      record = errorRecord error 1.
Proof.
  apply (runForEachItem_error_record (H := Example.host) Example.runner "task-1"
           (Example.settings Example.throwAtOne "runOnceForEachItem" true)
           Example.allData Example.workflow Example.console
           1 (JObject [("message", JString "boom")])).
  - reflexivity.
  - simpl. lia.
  - vm_compute. reflexivity.
  - vm_compute. reflexivity.
Defined.

(** X3 at the index-aware code, item 2. *)
Lemma eachItemTryBlock_record_example :
  exists result validated,
    runInNewContext (Host := Example.host)
      (eachItemWrapper Example.returnIndex)
      (eachItemContext (H := Example.host) Example.runner "task-1" Example.allData
         Example.workflow Example.console 2)
    = Return result /\
    result <> JNull /\
    validateRunForEachItemOutput (Host := Example.host) result 2
    = Return (Some validated) /\
    JObject [("v", JNumber #2)] = INodeExecutionData.json validated /\
    None = INodeExecutionData.binary validated /\
    Some {| INodeExecutionData.item := 2 |} = Some {| INodeExecutionData.item := 2 |}.
Proof.
  apply (eachItemTryBlock_record (H := Example.host) Example.runner "task-1"
           (Example.settings Example.returnIndex "runOnceForEachItem" false)
           Example.allData Example.workflow Example.console 2
           {| INodeExecutionData.json := JObject [("v", JNumber #2)];
              INodeExecutionData.binary := None;
              INodeExecutionData.pairedItem := Some {| INodeExecutionData.item := 2 |} |}).
  vm_compute. reflexivity.
Defined.

(** X4 at the index-aware code on three items. *)
Lemma runForEachItem_one_record_per_item_example :
  exists records,
    runForEachItem (H := Example.host) Example.runner "task-1"
      (Example.settings Example.returnIndex "runOnceForEachItem" false)
      Example.allData Example.workflow Example.console
    = {| Run.evaluated := seq 0 3; Run.outcome := Return records |} /\
    length records = 3 /\
    forall i, i < 3 ->
      exists record,
        records !! i = Some record /\
        eachItemTryBlock (H := Example.host) Example.runner "task-1"
          (Example.settings Example.returnIndex "runOnceForEachItem" false)
          Example.allData Example.workflow Example.console i
        = Return (Some record) /\
        INodeExecutionData.pairedItem record = Some {| INodeExecutionData.item := i |}.
Proof.
  apply (runForEachItem_one_record_per_item (H := Example.host) Example.runner
           "task-1" (Example.settings Example.returnIndex "runOnceForEachItem" false)
           Example.allData Example.workflow Example.console).
  intros i Hi. simpl in Hi.
  destruct i as [|[|[|i]]]; [eexists; vm_compute; reflexivity..|lia].
Defined.


(** X25 at the code [throw 1n;] under [continueOnFail]: the run stops at
    the first item. *)
Lemma runForEachItem_normaliser_throws_example :
  exists first,
    first <= 0 /\
    Run.evaluated
      (runForEachItem (H := Example.host) Example.runner "task-1"
         (Example.settings Example.throwBigInt "runOnceForEachItem" true)
         Example.allData Example.workflow Example.console)
    = seq 0 (S first) /\
    (forall records,
        Run.outcome
          (runForEachItem (H := Example.host) Example.runner "task-1"
             (Example.settings Example.throwBigInt "runOnceForEachItem" true)
             Example.allData Example.workflow Example.console)
        <> Return records) /\
    (first = 0 ->
     Run.outcome
       (runForEachItem (H := Example.host) Example.runner "task-1"
          (Example.settings Example.throwBigInt "runOnceForEachItem" true)
          Example.allData Example.workflow Example.console)
     = Throw (NormaliserThrew (StringifyFailed JSON.NotSerializable))).
Proof.
  apply (runForEachItem_normaliser_throws (H := Example.host) Example.runner "task-1"
           (Example.settings Example.throwBigInt "runOnceForEachItem" true)
           Example.allData Example.workflow Example.console 0 (JBigInt 1)).
  - simpl. lia.
  - vm_compute. reflexivity.
  - reflexivity.
Defined.

(** ** All-items runs *)

Section AllItemsRuns.

Context `{Host}.
Variables (this : JsTaskRunner) (taskId : string) (settings : JSExecSettings)
          (allData : AllCodeTaskData) (workflow : Workflow) (console : CustomConsole).

(** X26.  In all-items mode, when the evaluation of the code throws a
    value that the normaliser turns into an error, the run returns one
    record, without back reference, whose payload holds the message of
    that error under [error], if [continueOnFail] is set, and throws that
    error otherwise. *)
Theorem runForAllItems_throws_normalised (e : JsValue) (error : NormalizedError) :
  runInNewContext (allItemsWrapper (JSExecSettings.code settings))
    (allItemsContext this taskId allData workflow console)
  = Throw e ->
  toExecutionErrorIfNeeded e = Return error ->
  runForAllItems this taskId settings allData workflow console
  = if JSExecSettings.continueOnFail settings
    then Return [ {| INodeExecutionData.json :=
                       JObject [("error", JString (NormalizedError.message error))];
                     INodeExecutionData.binary := None;
                     INodeExecutionData.pairedItem := None |} ]
    else Throw (Normalized error).
Proof.
  intros Hthrows Hnormalised.
  now rewrite (runForAllItems_catch this taskId settings allData workflow console e),
    Hnormalised.
Qed.

End AllItemsRuns.

(** X26 at the code [throw 'oops';] under [continueOnFail]. *)
Lemma runForAllItems_throws_normalised_example :
  runForAllItems (H := Example.host) Example.runner "task-1"
    (Example.settings Example.throwString "runOnceForAllItems" true)
    Example.allData Example.workflow Example.console
  = Return [ {| INodeExecutionData.json :=
                  JObject [("error", JString (JSON.quote "oops"))];
                INodeExecutionData.binary := None;
                INodeExecutionData.pairedItem := None |} ].
Proof.
  apply (runForAllItems_throws_normalised (H := Example.host) Example.runner "task-1"
           (Example.settings Example.throwString "runOnceForAllItems" true)
           Example.allData Example.workflow Example.console (JString "oops")
           (newExecutionError {| ErrorLike.message := JSON.quote "oops";
                                 ErrorLike.stack := None |})).
  - vm_compute. reflexivity.
  - reflexivity.
Defined.

(** ** The task as a whole *)

Section TaskOutcome.

Context `{Host}.
Variable this : JsTaskRunner.

Local Abbreviation workflowOf allData :=
  {| Workflow.parameters := AllCodeTaskData.workflow allData;
     Workflow.nodeTypes := nodeTypes this |}.
Local Abbreviation consoleOf task := {| logTaskId := Task.taskId task |}.
Local Abbreviation metadataOf allData :=
  (IRunExecutionData.metadata
     (IRunExecutionData.resultData (AllCodeTaskData.runExecutionData allData))).

(** X8.  In all-items mode a result of the code that is not [null] and
    that the validation accepts reaches the caller as the validation gave
    it, together with the metadata of the bundle; [continueOnFail] and the
    input items play no part. *)
Theorem executeTask_allItems_validated (task : Task) (settings : JSExecSettings)
    (allData : AllCodeTaskData) (result : JsValue) (output : list INodeExecutionData) :
  requestData (Task.taskId task) "all" = Return allData ->
  Task.settings task = Some settings ->
  JSExecSettings.nodeMode settings = "runOnceForAllItems" ->
  runInNewContext (allItemsWrapper (JSExecSettings.code settings))
    (allItemsContext this (Task.taskId task) allData (workflowOf allData)
       (consoleOf task))
  = Return result ->
  result <> JNull ->
  validateRunForAllItemsOutput result = Return output ->
  executeTask this task
  = Return {| TaskResultData.result := output;
              TaskResultData.customData := metadataOf allData |}.
Proof.
  intros Hdata Hsettings Hmode Hresult Hnotnull Hvalid.
  destruct (executeTask_paths this task settings allData Hdata Hsettings) as [-> _];
    [|assumption].
  unfold runForAllItems. rewrite Hresult. simpl.
  destruct result; try contradiction; now rewrite Hvalid.
Qed.

End TaskOutcome.

(** X8 at the code [return [{json:{a:1}}];]. *)
Lemma executeTask_allItems_validated_example :
  executeTask (H := Sample.host) Sample.runner
    (Sample.task Sample.returnList "runOnceForAllItems" false)
  = Return {| TaskResultData.result :=
                [ {| INodeExecutionData.json := JObject [("a", JNumber #1)];
                     INodeExecutionData.binary := None;
                     INodeExecutionData.pairedItem := None |} ];
              TaskResultData.customData := JObject [("source", JString "bundle")] |}.
Proof.
  apply (executeTask_allItems_validated (H := Sample.host) Sample.runner
           (Sample.task Sample.returnList "runOnceForAllItems" false)
           (Example.settings Sample.returnList "runOnceForAllItems" false)
           Sample.allData
           (JArray [JObject [("json", JObject [("a", JNumber #1)])]])).
  - reflexivity.
  - reflexivity.
  - reflexivity.
  - vm_compute. reflexivity.
  - discriminate.
  - reflexivity.
Defined.


(** ** The contexts *)

Section Contexts.

Context `{Host}.
Variables (this : JsTaskRunner) (taskId : string) (allData : AllCodeTaskData)
          (workflow : Workflow) (console : CustomConsole).

Local Abbreviation inputItems := (AllCodeTaskData.connectionInputData allData).

(** X9.  A name of a context is resolved by precedence: a member of the
    RPC object shadows a member of the data proxy of the same name, which
    shadows a native variable, which shadows the runner's own bindings
    ([require], [module], [console] and the item or items). *)
Theorem context_precedence (index : nat) (name : string) :
  allItemsContext this taskId allData workflow console !! name
  = match buildRpcCallObject taskId !! name with
    | Some member => Some (CRpc member)
    | None =>
        match createDataProxy allData workflow (AllCodeTaskData.itemIndex allData)
                !! name with
        | Some member => Some (CDataProxy member)
        | None =>
            match getNativeVariables !! name with
            | Some native => Some (CNative native)
            | None =>
                (list_to_map
                   [ ("require", CRequire (requireResolver this));
                     ("module", CModule);
                     ("console", CConsole console);
                     ("items", CItems inputItems) ] : VmContext) !! name
            end
        end
    end /\
  eachItemContext this taskId allData workflow console index !! name
  = match buildRpcCallObject taskId !! name with
    | Some member => Some (CRpc member)
    | None =>
        match createDataProxy allData workflow index !! name with
        | Some member => Some (CDataProxy member)
        | None =>
            match getNativeVariables !! name with
            | Some native => Some (CNative native)
            | None =>
                (list_to_map
                   [ ("require", CRequire (requireResolver this));
                     ("module", CModule);
                     ("console", CConsole console);
                     ("item", CItem (inputItems !! index)) ] : VmContext) !! name
            end
        end
    end.
Proof. split; apply spread_lookup. Qed.

(** X10.  Unless the data proxy or the RPC object bind these names, the
    code run for an item sees that item as [item] and no [items], and the
    code run for all items sees the whole input as [items] and no
    [item]. *)
Theorem contexts_bind_input (index : nat) :
  (forall name, name = "item" \/ name = "items" ->
     buildRpcCallObject taskId !! name = None /\
     createDataProxy allData workflow index !! name = None /\
     createDataProxy allData workflow (AllCodeTaskData.itemIndex allData) !! name
     = None) ->
  eachItemContext this taskId allData workflow console index !! "item"
  = Some (CItem (inputItems !! index)) /\
  eachItemContext this taskId allData workflow console index !! "items" = None /\
  allItemsContext this taskId allData workflow console !! "items"
  = Some (CItems inputItems) /\
  allItemsContext this taskId allData workflow console !! "item" = None.
Proof.
  intros Hfree.
  destruct (Hfree "item") as (Hrpc & Heach & Hall); [now left|].
  destruct (Hfree "items") as (Hrpc' & Heach' & Hall'); [now right|].
  unfold allItemsContext, eachItemContext.
  rewrite !spread_lookup, Hrpc, Hrpc', Heach, Heach', Hall, Hall'.
  repeat split.
Qed.

(** X11.  The environment handed to the data proxy holds no variable of
    its own: a variable that can be read from it is one of the
    environment-provider state of the bundle. *)
Theorem createDataProxy_env_from_bundle (itemIndex : nat) (name value : string) :
  EnvProviderState.env
    (WorkflowDataProxy.envProviderState
       (createDataProxyArguments allData workflow itemIndex)) !! name
  = Some value ->
  exists state,
    AllCodeTaskData.envProviderState allData = Some state /\
    EnvProviderState.env state !! name = Some value /\
    WorkflowDataProxy.envProviderState
      (createDataProxyArguments allData workflow itemIndex) = state.
Proof.
  simpl. destruct (AllCodeTaskData.envProviderState allData) as [state|]; simpl.
  - intros Hread. now exists state.
  - rewrite lookup_empty. discriminate.
Qed.

End Contexts.

(** X9 at a host whose data proxy binds [Buffer]: the context holds the
    member of the data proxy, not the host's [Buffer]. *)
Example context_shadowing :
  allItemsContext (H := Sample.host) Sample.runner "task-1" Sample.allData
    Example.workflow Example.console !! "Buffer" = Some (CDataProxy 0) /\
  allItemsContext (H := Example.host) Example.runner "task-1" Example.allData
    Example.workflow Example.console !! "Buffer" = Some (CNative hostBuffer).
Proof. split; vm_compute; reflexivity. Qed.

(** X10 at the first example host. *)
Lemma contexts_bind_input_example :
  eachItemContext (H := Example.host) Example.runner "task-1" Example.allData
    Example.workflow Example.console 1 !! "item"
  = Some (CItem (Some (Example.inputItem 20))) /\
  eachItemContext (H := Example.host) Example.runner "task-1" Example.allData
    Example.workflow Example.console 1 !! "items" = None /\
  allItemsContext (H := Example.host) Example.runner "task-1" Example.allData
    Example.workflow Example.console !! "items"
  = Some (CItems [Example.inputItem 10; Example.inputItem 20; Example.inputItem 30]) /\
  allItemsContext (H := Example.host) Example.runner "task-1" Example.allData
    Example.workflow Example.console !! "item" = None.
Proof.
  apply (contexts_bind_input (H := Example.host) Example.runner "task-1"
           Example.allData Example.workflow Example.console 1).
  intros name [-> | ->]; repeat split.
Defined.

(** X11 at the bundle that carries a state. *)
Lemma createDataProxy_env_from_bundle_example :
  exists state,
    AllCodeTaskData.envProviderState Sample.allData = Some state /\
    EnvProviderState.env state !! "N8N_HOST" = Some "example.org" /\
    WorkflowDataProxy.envProviderState
      (createDataProxyArguments (H := Sample.host) Sample.allData Example.workflow 0)
    = state.
Proof.
  apply (createDataProxy_env_from_bundle (H := Sample.host) Sample.allData
           Example.workflow 0 "N8N_HOST" "example.org").
  reflexivity.
Defined.

(** ** More on the module allow lists *)

Section AllowLists.

Import JsString.

Lemma contains_append (c : ascii) (s t : string) :
  contains c (s +:+ t) = contains c s || contains c t.
Proof.
  induction s as [|d s IH]; [reflexivity|].
  rewrite append_cons. simpl. now rewrite IH, orb_assoc.
Qed.

Lemma trim_contains (c : ascii) (s : string) :
  contains c s = false -> contains c (trim s) = false.
Proof.
  destruct (trim_Trimmed s) as [(before & after & Hs & _) _].
  rewrite Hs at 1. rewrite !contains_append.
  intros [_ [Hkept _]%orb_false_elim]%orb_false_elim. exact Hkept.
Qed.

Lemma split_without_separator (sep : ascii) (s : string) :
  contains sep s = false -> split sep s = [s].
Proof.
  induction s as [|c s IH]; [reflexivity|]. simpl.
  intros [-> Hs]%orb_false_elim. now rewrite IH.
Qed.

Lemma whiteSpace_without_comma (s : string) :
  allWhiteSpace s = true -> contains "," s = false.
Proof.
  induction s as [|c s IH]; [reflexivity|]. simpl.
  intros [Hc Hs]%andb_true_iff. rewrite IH by assumption.
  destruct (Ascii.eqb_spec c ",") as [->|]; [discriminate | reflexivity].
Qed.

Lemma split_join (parts : list string) :
  parts <> [] ->
  Forall (fun part => contains "," part = false) parts ->
  split "," (join "," parts) = parts.
Proof.
  intros Hne Hfree. symmetry. apply SplitOnCommas_unique. now repeat split.
Qed.

Lemma parseModuleAllowList_explicit (moduleList : string) :
  moduleList <> "*" ->
  parseModuleAllowList moduleList
  = Some (list_to_set (trim <$> split "," moduleList)).
Proof.
  intros Hother%String.eqb_neq. unfold parseModuleAllowList. now rewrite Hother.
Qed.

(** X12.  An explicit allow list is never empty, and each of its
    identifiers is a trimmed piece of the configuration string: it holds
    no comma and neither starts nor ends with white space. *)
Theorem parseModuleAllowList_entries (moduleList : string) (allowed : gset string) :
  parseModuleAllowList moduleList = Some allowed ->
  allowed <> ∅ /\
  forall identifier, identifier ∈ allowed ->
    (exists piece, piece ∈ split "," moduleList /\ identifier = trim piece) /\
    contains "," identifier = false /\
    (forall c, firstChar identifier = Some c -> isWhiteSpace c = false) /\
    (forall c, lastChar identifier = Some c -> isWhiteSpace c = false).
Proof.
  unfold parseModuleAllowList. destruct (String.eqb moduleList "*"); [discriminate|].
  change (List.map trim (split "," moduleList)) with (trim <$> split "," moduleList).
  intros [= <-]. split.
  - pose proof (split_nonempty "," moduleList) as Hne.
    destruct (split "," moduleList) as [|piece pieces]; [contradiction|].
    intros Hempty. apply (not_elem_of_empty (C := gset string) (trim piece)).
    rewrite <- Hempty. apply elem_of_list_to_set. rewrite fmap_cons. left.
  - intros identifier (piece & -> & Hpiece)%elem_of_list_to_set%list_elem_of_fmap.
    split; [now exists piece|].
    destruct (trim_Trimmed piece) as (_ & Hfirst & Hlast).
    split; [|now split].
    apply trim_contains.
    pose proof (split_contains "," moduleList) as Hfree.
    rewrite Forall_forall in Hfree. now apply Hfree.
Qed.

(** X13.  The order of the entries of a configuration string does not
    matter: two strings whose comma-separated entries are permutations of
    each other give the same allow list. *)
Theorem parseModuleAllowList_permutation (parts parts' : list string) :
  parts <> [] ->
  Forall (fun part => contains "," part = false) parts ->
  parts ≡ₚ parts' ->
  parseModuleAllowList (join "," parts) = parseModuleAllowList (join "," parts').
Proof.
  intros Hne Hfree Hperm.
  assert (parts' <> []) as Hne'.
  { intros ->. now apply Permutation_nil_r in Hperm. }
  assert (Forall (fun part => contains "," part = false) parts') as Hfree'.
  { now rewrite <- Hperm. }
  assert (forall l l' : list string,
             l <> [] -> Forall (fun part => contains "," part = false) l ->
             l ≡ₚ l' -> join "," l = "*" -> l' = l) as Hwildcard.
  { intros l l' Hl Hlfree Hll' Hjoin.
    rewrite <- (split_join l Hl Hlfree), Hjoin in Hll' |- *.
    now apply Permutation_singleton_l in Hll'. }
  destruct (decide (join "," parts = "*")) as [Hjoin | Hjoin].
  { now rewrite (Hwildcard parts parts'). }
  destruct (decide (join "," parts' = "*")) as [Hjoin' | Hjoin'].
  { now rewrite (Hwildcard parts' parts). }
  rewrite !parseModuleAllowList_explicit by assumption.
  rewrite !split_join by assumption.
  f_equal. apply list_to_set_perm_L. now rewrite Hperm.
Qed.

(** X14.  The wildcard is recognised only as the whole string: padded with
    white space it is an explicit list whose one identifier is the
    asterisk. *)
Theorem parseModuleAllowList_padded_wildcard (before after : string) :
  allWhiteSpace before = true ->
  allWhiteSpace after = true ->
  before +:+ after <> "" ->
  parseModuleAllowList (before +:+ "*" +:+ after) = Some {[ "*" ]}.
Proof.
  intros Hbefore Hafter Hpadded.
  rewrite parseModuleAllowList_explicit.
  - rewrite split_without_separator.
    + change (trim <$> [before +:+ "*" +:+ after])
        with [trim (before +:+ "*" +:+ after)].
      rewrite <- (Trimmed_unique (before +:+ "*" +:+ after) "*").
      * apply f_equal. apply (right_id_L ∅ (∪)).
      * split; [now exists before, after|].
        split; intros c [= <-]; reflexivity.
    + rewrite !contains_append.
      rewrite (whiteSpace_without_comma before), (whiteSpace_without_comma after)
        by assumption.
      reflexivity.
  - intros Heq. apply Hpadded.
    destruct before as [|c [|d before]]; try discriminate.
    now destruct after.
Qed.

End AllowLists.

(** X12 at the string [crypto, path]. *)
Lemma parseModuleAllowList_entries_example :
  ({[ "crypto"; "path" ]} : gset string) <> ∅ /\
  forall identifier, identifier ∈ ({[ "crypto"; "path" ]} : gset string) ->
    (exists piece,
        piece ∈ JsString.split "," "crypto, path" /\ identifier = JsString.trim piece) /\
    JsString.contains "," identifier = false /\
    (forall c, JsString.firstChar identifier = Some c ->
               JsString.isWhiteSpace c = false) /\
    (forall c, JsString.lastChar identifier = Some c ->
               JsString.isWhiteSpace c = false).
Proof.
  apply (parseModuleAllowList_entries "crypto, path").
  vm_compute. reflexivity.
Defined.

(** X13 at two orders of three entries. *)
Lemma parseModuleAllowList_permutation_example :
  parseModuleAllowList "fs, path,crypto" = parseModuleAllowList "crypto,fs, path".
Proof.
  apply (parseModuleAllowList_permutation ["fs"; " path"; "crypto"]
           ["crypto"; "fs"; " path"]).
  - discriminate.
  - repeat constructor.
  - symmetry. apply (Permutation_cons_append ["fs"; " path"] "crypto").
Defined.

(** X14 at the wildcard between a space and a line feed. *)
Lemma parseModuleAllowList_padded_wildcard_example :
  parseModuleAllowList (" " +:+ "*" +:+ String (ascii_of_nat 10) "") = Some {[ "*" ]}.
Proof.
  apply (parseModuleAllowList_padded_wildcard " " (String (ascii_of_nat 10) "")).
  - reflexivity.
  - reflexivity.
  - discriminate.
Defined.


(** ** What an error leaves in the output *)

(** X15.  The payload of an error record tells how the value was thrown:
    an object with a [message] string (an error of the vm realm) and a
    host [Error] leave their own message text; a thrown string leaves its
    JSON text, quotes included.  On each of them the normaliser yields an
    error.  ([isErrorLike] and [ExecutionError] are modelled from the
    specification.) *)
Theorem errorPayload_message :
  (forall properties message,
      getProperty properties "message" = JString message ->
      exists error,
        toExecutionErrorIfNeeded (JObject properties) = Return error /\
        errorPayload error = JObject [("error", JString message)]) /\
  (forall message stack,
      exists error,
        toExecutionErrorIfNeeded (JError message stack) = Return error /\
        errorPayload error = JObject [("error", JString message)]) /\
  (forall text,
      exists error,
        toExecutionErrorIfNeeded (JString text) = Return error /\
        errorPayload error = JObject [("error", JString (JSON.quote text))]).
Proof.
  split; [|split; intros; eexists; split; reflexivity].
  intros properties message Hmessage.
  unfold toExecutionErrorIfNeeded, asErrorLike. rewrite Hmessage.
  eexists. split; reflexivity.
Qed.

(** ** The console shim *)

Section ConsoleShim.

Variable functionText : string.

Local Abbreviation logLine := (logOutput functionText).

Lemma join_app (sep : string) (l k : list string) :
  l <> [] -> k <> [] ->
  JsString.join sep (l ++ k) = JsString.join sep l +:+ sep +:+ JsString.join sep k.
Proof.
  intros Hl Hk. induction l as [|part l IH]; [contradiction|].
  destruct l as [|next l].
  - simpl app. now rewrite join_cons.
  - change ((part :: next :: l) ++ k) with (part :: (next :: l) ++ k).
    rewrite join_cons by discriminate. rewrite IH by discriminate.
    rewrite (join_cons sep part (next :: l)) by discriminate.
    now rewrite !append_associative.
Qed.

Lemma mapC_app {E A B : Type} (f : A -> Completion E B) (l k : list A) :
  mapC f (l ++ k)
  = let! first := mapC f l in
    let! second := mapC f k in
    Return (first ++ second).
Proof.
  induction l as [|x l IH]; simpl.
  - now destruct (mapC f k).
  - destruct (f x) as [y|e]; simpl; [|reflexivity].
    rewrite IH. destruct (mapC f l) as [ys|e]; simpl; [|reflexivity].
    now destruct (mapC f k).
Qed.

Lemma mapC_length {E A B : Type} (f : A -> Completion E B) (l : list A) (r : list B) :
  mapC f l = Return r -> length r = length l.
Proof.
  revert r. induction l as [|x l IH]; intros r; simpl.
  - now intros [= <-].
  - destruct (f x) as [y|e]; simpl; [|discriminate].
    destruct (mapC f l) as [ys|e]; simpl; [|discriminate].
    intros [= <-]. simpl. now rewrite (IH ys).
Qed.

(** X16.  One call of [log] makes one [logNodeOutput] call for the task of
    the console, with the line as its only parameter; the line of several
    arguments is the lines of its parts joined by one space, and the call
    throws what the first part that cannot be formatted throws. *)
Theorem consoleLog_line (console : CustomConsole) (args args' : list JsValue) :
  args <> [] -> args' <> [] ->
  consoleLog functionText console (args ++ args')
  = let! line := logOutput functionText args in
    let! line' := logOutput functionText args' in
    Return {| RpcCall.taskId := logTaskId console;
              RpcCall.method := "logNodeOutput";
              RpcCall.params := [JString (line +:+ " " +:+ line')] |}.
Proof.
  intros Hargs Hargs'. unfold consoleLog, logOutput. rewrite mapC_app.
  destruct (mapC (logArgument functionText) args) as [pieces|e] eqn:Hpieces;
    simpl; [|reflexivity].
  destruct (mapC (logArgument functionText) args') as [pieces'|e] eqn:Hpieces';
    simpl; [|reflexivity].
  rewrite join_app; [reflexivity| |].
  - apply mapC_length in Hpieces. destruct pieces, args; try discriminate.
    contradiction.
  - apply mapC_length in Hpieces'. destruct pieces', args'; try discriminate.
    contradiction.
Qed.

(** X17.  A string is logged bare, but in its quoted JSON form inside an
    array; [null] and [undefined] are logged as nothing, but as [null]
    inside an array; an object is logged as its JSON text. *)
Theorem logOutput_values (text : string) (properties : list (string * JsValue)) :
  logOutput functionText [JString text] = Return text /\
  logOutput functionText [JArray [JString text]]
  = Return ("[" +:+ JSON.quote text +:+ "]") /\
  logOutput functionText [JNull] = Return "" /\
  logOutput functionText [JUndefined] = Return "" /\
  logOutput functionText [JArray [JNull; JUndefined]] = Return "[null,null]" /\
  logOutput functionText [JNull; JUndefined] = Return " " /\
  logOutput functionText [] = Return "" /\
  JSON.stringify (JObject properties)
  = let! line := logOutput functionText [JObject properties] in
    Return (Some line).
Proof.
  repeat (split; [unfold logOutput; simpl; now rewrite ?append_empty_r|]).
  unfold logOutput, mapC, logArgument.
  destruct (JSON.stringify (JObject properties)) as [[line|]|e] eqn:Htext;
    simpl; try reflexivity.
  exfalso. simpl in Htext.
  destruct (mapC _ properties); simpl in Htext; discriminate.
Qed.

End ConsoleShim.

(** X16 at a log of a label and an object. *)
Lemma consoleLog_line_example :
  consoleLog "function () {}" Example.console
    ([JString "item"] ++ [JObject [("n", JNumber #1)]])
  = Return {| RpcCall.taskId := "task-1";
              RpcCall.method := "logNodeOutput";
              RpcCall.params :=
                [JString ("item" +:+ " " +:+ "{" +:+ JSON.quote "n" +:+ ":1}")] |}.
Proof.
  apply (consoleLog_line "function () {}" Example.console
           [JString "item"] [JObject [("n", JNumber #1)]]); discriminate.
Defined.

(** * Properties of the API settings view *)

Section SettingsView.

Import SettingsApiView.

Variable baseText : string -> string.
Variables DOCS_DOMAIN MODAL_CONFIRM : string.

Local Abbreviation show := (render baseText).
Local Abbreviation create := (createApiKey baseText).
Local Abbreviation delete := (deleteApiKey baseText).

(** X18.  The computed [isRedactedApiKey] throws on an empty key list, its
    guard notwithstanding; the template reads it only beside a first key,
    so that rendering never throws. *)
Theorem render_returns :
  (forall this, apiKeys this = [] -> exists error, isRedactedApiKey this = Throw error) /\
  (forall stores this, exists view, show stores this = Return view) /\
  (forall stores this label value disableCopy hint note linkText link,
      show stores this = Return (KeyCard label value disableCopy hint note linkText link) ->
      exists key rest,
        apiKeys this = key :: rest /\
        label = SettingsApiView.label key /\ value = apiKey key /\
        disableCopy = JsString.contains "*" (apiKey key) /\
        (hint = "" <-> disableCopy = true \/ baseText "settings.api.view.copy" = "") /\
        link = apiDocsURL this).
Proof.
  split; [|split].
  - intros this Hkeys. unfold isRedactedApiKey. rewrite Hkeys. eauto.
  - intros stores this. unfold render, isRedactedApiKey.
    destruct (apiKeys this) as [|key rest]; simpl.
    + destruct (negb (isPublicApiEnabled stores) && userIsTrialing stores); [eauto|].
      destruct (mounted this && negb (loadingPlan stores)); eauto.
    + eauto.
  - intros stores this label value disableCopy hint note linkText link.
    unfold render, isRedactedApiKey.
    destruct (apiKeys this) as [|key rest]; simpl.
    + destruct (negb (isPublicApiEnabled stores) && userIsTrialing stores);
        [discriminate|].
      destruct (mounted this && negb (loadingPlan stores)); discriminate.
    + intros [= <- <- <- <- _ _ <-]. exists key, rest. repeat split.
      * destruct (JsString.contains "*" (apiKey key)); simpl; [now left | now right].
      * destruct (JsString.contains "*" (apiKey key)); simpl; [reflexivity|].
        now intros [? | ?].
Qed.

(** X19.  When the public API is disabled the hook [mounted] requests no
    keys and leaves the data as it is; on the initial data the view is
    then the upgrade box for a trialing user and no box otherwise, never
    the box to create a key. *)
Theorem mounted_disabled (stores : Stores)
    (request : Completion JsValue (list ApiKey)) (this : Data) :
  isPublicApiEnabled stores = false ->
  mountedHook baseText DOCS_DOMAIN stores request this
  = (this, [SetDocumentTitle (baseText "settings.api")]) /\
  show stores data = Return (if userIsTrialing stores then UpgradeBox else NoBox).
Proof.
  intros Hdisabled. unfold mountedHook, render. rewrite Hdisabled. simpl.
  split; [reflexivity|]. now destruct (userIsTrialing stores).
Qed.

(** X20.  When the public API is enabled, the data are marked mounted
    after the hook whether the request for the keys succeeds or fails; the
    keys are those received, or stay as they were with an error shown; the
    documentation link is the local one exactly when Swagger UI is
    enabled. *)
Theorem mounted_enabled (stores : Stores)
    (request : Completion JsValue (list ApiKey)) (this : Data) :
  isPublicApiEnabled stores = true ->
  let after := mountedHook baseText DOCS_DOMAIN stores request this in
  mounted (fst after) = true /\
  loading (fst after) = loading this /\
  swaggerUIEnabled (fst after) = isSwaggerUIEnabled stores /\
  apiDocsURL (fst after)
  = (if isSwaggerUIEnabled stores
     then baseUrl stores +:+ publicApiPath stores +:+ "/v" +:+
          JSON.numberToString (publicApiLatestVersion stores) +:+ "/docs"
     else "https://" +:+ DOCS_DOMAIN +:+ "/api/api-reference/") /\
  match request with
  | Return keys =>
      apiKeys (fst after) = keys /\
      snd after = [SetDocumentTitle (baseText "settings.api"); RequestApiKeys]
  | Throw error =>
      apiKeys (fst after) = apiKeys this /\
      snd after = [SetDocumentTitle (baseText "settings.api"); RequestApiKeys;
                   ShowError error (baseText "settings.api.view.error")]
  end.
Proof.
  intros Henabled. unfold mountedHook. rewrite Henabled.
  destruct request as [keys|error]; simpl; repeat split.
Qed.

(** X21.  [createApiKey] shows the loading state while its request is
    pending and always ends with loading off and the click tracked; a key
    received is appended after the keys held, a failure leaves the keys as
    they were and shows the error. *)
Theorem createApiKey_settles (request : Completion JsValue ApiKey) (this : Data) :
  loading (createApiKeyPending this) = true /\
  apiKeys (createApiKeyPending this) = apiKeys this /\
  loading (fst (create request this)) = false /\
  mounted (fst (create request this)) = mounted this /\
  last (snd (create request this)) = Some (Track "User clicked create API key button") /\
  match request with
  | Return key =>
      apiKeys (fst (create request this)) = apiKeys this ++ [key] /\
      forall error title, ShowError error title ∉ snd (create request this)
  | Throw error =>
      apiKeys (fst (create request this)) = apiKeys this /\
      ShowError error (baseText "settings.api.create.error") ∈ snd (create request this)
  end.
Proof.
  unfold createApiKey, createApiKeyPending.
  destruct request as [key|error]; simpl; repeat split.
  - intros error title Hin. rewrite !elem_of_cons, elem_of_nil in Hin.
    destruct Hin as [? | [? | []]]; discriminate.
  - rewrite !elem_of_cons. auto.
Qed.

(** What [deleteApiKey] does, case by case. *)
Lemma deleteApiKey_effects (request : string -> Completion JsValue unit) (this : Data) :
  last (snd (delete request this)) = Some (Track "User clicked delete API key button") /\
  match apiKeys this with
  | [] =>
      fst (delete request this) = this /\
      (forall id, RequestDeleteApiKey id ∉ snd (delete request this)) /\
      exists error,
        ShowError error (baseText "settings.api.delete.error") ∈ snd (delete request this)
  | key :: rest =>
      (forall id, RequestDeleteApiKey id ∈ snd (delete request this) <->
                  id = SettingsApiView.id key) /\
      match request (SettingsApiView.id key) with
      | Return _ =>
          apiKeys (fst (delete request this)) = [] /\
          ShowMessage (baseText "settings.api.delete.toast") ∈ snd (delete request this)
      | Throw error =>
          fst (delete request this) = this /\
          ShowError error (baseText "settings.api.delete.error")
          ∈ snd (delete request this)
      end
  end.
Proof.
  unfold deleteApiKey. destruct (apiKeys this) as [|key rest] eqn:Hkeys.
  - simpl. repeat split.
    + intros id Hin. rewrite !elem_of_cons, elem_of_nil in Hin.
      destruct Hin as [? | [? | []]]; discriminate.
    + eexists. left.
  - destruct (request (SettingsApiView.id key)) as [[]|error]; simpl;
      (split; [reflexivity|]); (split; [|split]);
      try (rewrite !elem_of_cons; auto; fail);
      try reflexivity;
      intros id; rewrite !elem_of_cons, elem_of_nil;
      (split; [intros [[= ->] | [? | [? | []]]]; (reflexivity || discriminate)
              | intros ->; now left]).
Qed.

(** X22.  [deleteApiKey] on an empty key list sends no request and shows
    an error; otherwise it asks the store to delete the first key only,
    and on success drops every key it holds, on failure none.  In each
    case the click is tracked last. *)
Theorem deleteApiKey_cases (request : string -> Completion JsValue unit) (this : Data) :
  last (snd (delete request this)) = Some (Track "User clicked delete API key button") /\
  match apiKeys this with
  | [] =>
      fst (delete request this) = this /\
      (forall id, RequestDeleteApiKey id ∉ snd (delete request this)) /\
      exists error,
        ShowError error (baseText "settings.api.delete.error") ∈ snd (delete request this)
  | key :: rest =>
      (forall id, RequestDeleteApiKey id ∈ snd (delete request this) <->
                  id = SettingsApiView.id key) /\
      match request (SettingsApiView.id key) with
      | Return _ =>
          apiKeys (fst (delete request this)) = [] /\
          ShowMessage (baseText "settings.api.delete.toast") ∈ snd (delete request this)
      | Throw error =>
          fst (delete request this) = this /\
          ShowError error (baseText "settings.api.delete.error")
          ∈ snd (delete request this)
      end
  end.
Proof. apply deleteApiKey_effects. Qed.

(** X23.  [showDeleteModal] sends a delete request exactly when the
    confirmation resolved to [MODAL_CONFIRM] and there is a key to delete;
    any other answer leaves the data as they are. *)
Theorem showDeleteModal_requests (confirmed : string)
    (request : string -> Completion JsValue unit) (this : Data) :
  ((exists id,
       RequestDeleteApiKey id
       ∈ snd (showDeleteModal baseText MODAL_CONFIRM confirmed request this)) <->
   confirmed = MODAL_CONFIRM /\ apiKeys this <> []) /\
  (confirmed = MODAL_CONFIRM \/
   showDeleteModal baseText MODAL_CONFIRM confirmed request this
   = (this, [AskConfirmation (baseText "settings.api.delete.description")
               (baseText "settings.api.delete.title")])).
Proof.
  unfold showDeleteModal.
  destruct (String.eqb_spec confirmed MODAL_CONFIRM) as [Hconfirmed | Hdeclined].
  - split; [|now left].
    pose proof (deleteApiKey_effects request this) as [_ Hcases].
    destruct (deleteApiKey baseText request this) as [after effects] eqn:Hdelete.
    simpl in *. split.
    + intros [id Hin]. split; [assumption|].
      apply elem_of_cons in Hin as [? | Hin]; [discriminate|].
      destruct (apiKeys this); [|discriminate].
      destruct Hcases as (_ & Hnone & _). now apply Hnone in Hin.
    + intros [_ Hkeys]. destruct (apiKeys this) as [|key rest]; [contradiction|].
      destruct Hcases as [Hsent _]. exists (SettingsApiView.id key).
      right. now apply Hsent.
  - split; [|now right]. simpl. split.
    + intros [id Hin]. rewrite elem_of_cons, elem_of_nil in Hin.
      destruct Hin as [? | []]. discriminate.
    + intros [? _]. contradiction.
Qed.

(** X24.  Creating a key from the state without keys and deleting it again
    leads back to that state; in between, the view is the card of the new
    key. *)
Theorem create_then_delete (stores : Stores) (key : ApiKey)
    (request : string -> Completion JsValue unit) (this : Data) :
  apiKeys this = [] ->
  loading this = false ->
  request (id key) = Return tt ->
  (exists disableCopy hint note linkText,
      show stores (fst (create (Return key) this))
      = Return (KeyCard (label key) (apiKey key) disableCopy hint note linkText
                  (apiDocsURL this))) /\
  fst (delete request (fst (create (Return key) this))) = this.
Proof.
  intros Hkeys Hloading Hrequest.
  unfold createApiKey, deleteApiKey, render, isRedactedApiKey. simpl.
  rewrite Hkeys. simpl. rewrite Hrequest. simpl. split.
  - eauto.
  - destruct this; simpl in *. now subst.
Qed.

End SettingsView.

(** X19 for a trialing user. *)
Lemma mounted_disabled_example :
  SettingsApiView.mountedHook ViewSample.baseText "docs.n8n.io"
    (ViewSample.stores false true) (Return [ViewSample.key]) SettingsApiView.data
  = (SettingsApiView.data, [SettingsApiView.SetDocumentTitle "settings.api"]) /\
  SettingsApiView.render ViewSample.baseText (ViewSample.stores false true)
    SettingsApiView.data
  = Return SettingsApiView.UpgradeBox.
Proof.
  apply (mounted_disabled ViewSample.baseText "docs.n8n.io"
           (ViewSample.stores false true) (Return [ViewSample.key])
           SettingsApiView.data).
  reflexivity.
Defined.

(** X20 when the request for the keys fails. *)
Lemma mounted_enabled_example :
  SettingsApiView.mounted
    (fst (SettingsApiView.mountedHook ViewSample.baseText "docs.n8n.io"
            (ViewSample.stores true false) (Throw (JString "offline"))
            SettingsApiView.data)) = true.
Proof.
  apply (mounted_enabled ViewSample.baseText "docs.n8n.io"
           (ViewSample.stores true false) (Throw (JString "offline"))
           SettingsApiView.data).
  reflexivity.
Defined.

(** X24 at the sample key. *)
Lemma create_then_delete_example :
  fst (SettingsApiView.deleteApiKey ViewSample.baseText (fun _ => Return tt)
         (fst (SettingsApiView.createApiKey ViewSample.baseText
                 (Return ViewSample.key) SettingsApiView.data)))
  = SettingsApiView.data.
Proof.
  apply (create_then_delete ViewSample.baseText (ViewSample.stores true false)
           ViewSample.key (fun _ => Return tt) SettingsApiView.data);
    reflexivity.
Defined.

